(** * TM1628 LED controller driver (drivers/auxdisplay/tm1628.c)

    A shallow embedding of the driver's display-buffer logic: the protocol
    encoder, the text renderer, the LED bit controller, the sysfs text
    attribute and the probe routine, followed by the properties the
    specification states about them.

    C integers are modelled as [Z] with the conversions written out, the
    fixed-size arrays of [struct tm1628] as lists accessed through checked
    reads and stores (an access outside the array is undefined behaviour in
    C and is reported as [Fault]), and everything the driver asks of the
    kernel (SPI messages, sleeping, LED and sysfs registration) as an event
    appended to a trace.  The driver runs every buffer access under
    [disp_lock]; the embedding is sequential, so the mutex does not appear. *)

From Stdlib Require Import ZArith Lia Bool List.
From stdpp Require Import base list.
Import ListNotations.

Local Open Scope Z_scope.

(** ** Constants of the driver *)

Definition TM1628_CMD_DISPLAY_MODE : Z := Z.shiftl 0 6.
Definition TM1628_DISPLAY_MODE_6_12 : Z := 2.
Definition TM1628_DISPLAY_MODE_7_11 : Z := 3.

Definition TM1628_CMD_DATA : Z := Z.shiftl 1 6.
Definition TM1628_DATA_WRITE_DATA : Z := 0.

Definition TM1628_CMD_DISPLAY_CTRL : Z := Z.shiftl 2 6.
Definition TM1628_DISPLAY_CTRL_DISPLAY_ON : Z := Z.shiftl 1 3.

Definition TM1628_CMD_SET_ADDRESS : Z := Z.shiftl 3 6.

Definition TM1628_BRIGHTNESS_MAX : Z := 7.

Definition MAX_GRID_SIZE : Z := 7.
Definition MAX_SEGMENT_NUM : Z := 16.

Definition EINVAL : Z := 22.
Definition E2BIG : Z := 7.
Definition ENOMEM : Z := 12.

Definition LED_OFF : Z := 0.
Definition LED_ON : Z := 1.

(** ** Machine integers *)

Definition u8 (x : Z) : Z := x mod 2 ^ 8.
Definition u16 (x : Z) : Z := x mod 2 ^ 16.
Definition u32 (x : Z) : Z := x mod 2 ^ 32.

(** Conversion of a 32-bit pattern to [int]. *)
Definition to_int (x : Z) : Z :=
  let v := u32 x in if v <? 2 ^ 31 then v else v - 2 ^ 32.

(** [BIT(n)], that is [1UL << n], for the shift counts below the width of
    a long that the driver uses. *)
Definition BIT (n : Z) : Z := Z.shiftl 1 n.

Definition swab16 (v : Z) : Z :=
  Z.lor (Z.shiftl (Z.land v 255) 8) (Z.shiftr v 8).

(** ** Arrays with checked accesses *)

Definition arr_get (l : list Z) (i : Z) : option Z :=
  if 0 <=? i then l !! Z.to_nat i else None.

Definition arr_set (l : list Z) (i v : Z) : option (list Z) :=
  if (0 <=? i) && (i <? Z.of_nat (length l))
  then Some (<[Z.to_nat i := v]> l) else None.

(** The [len] elements starting at [offset], when they all lie in the array. *)
Definition arr_slice (l : list Z) (offset len : Z) : option (list Z) :=
  if (0 <=? offset) && (0 <=? len) && (offset + len <=? Z.of_nat (length l))
  then Some (take (Z.to_nat len) (drop (Z.to_nat offset) l)) else None.

(** [strlen]: the index of the first NUL; [None] when the array holds none. *)
Fixpoint strlen (l : list Z) : option Z :=
  match l with
  | [] => None
  | c :: r => if c =? 0 then Some 0 else option_map Z.succ (strlen r)
  end.

(** ** Driver state *)

Record tm1628_led := {
  led_grid : Z;                 (* u32 grid *)
  led_seg : Z                  (* u32 seg *)
}.

Record tm1628 := {
  data : list Z;                (* __le16 data[MAX_GRID_SIZE] *)
  text : list Z;                (* char text[MAX_GRID_SIZE + 1] *)
  segment_mapping : list Z;     (* u8 segment_mapping[7] *)
  grid : list Z;                (* u8 grid[MAX_GRID_SIZE] *)
  grid_size : Z;                (* int grid_size *)
  leds : list tm1628_led        (* struct tm1628_led leds[] *)
}.

Definition set_data (s : tm1628) (d : list Z) : tm1628 :=
  {| data := d; text := text s; segment_mapping := segment_mapping s;
     grid := grid s; grid_size := grid_size s; leds := leds s |}.

Definition set_text (s : tm1628) (t : list Z) : tm1628 :=
  {| data := data s; text := t; segment_mapping := segment_mapping s;
     grid := grid s; grid_size := grid_size s; leds := leds s |}.

Definition set_segment_mapping (s : tm1628) (m : list Z) : tm1628 :=
  {| data := data s; text := text s; segment_mapping := m;
     grid := grid s; grid_size := grid_size s; leds := leds s |}.

Definition set_grid (s : tm1628) (g : list Z) : tm1628 :=
  {| data := data s; text := text s; segment_mapping := segment_mapping s;
     grid := g; grid_size := grid_size s; leds := leds s |}.

Definition set_grid_size (s : tm1628) (n : Z) : tm1628 :=
  {| data := data s; text := text s; segment_mapping := segment_mapping s;
     grid := grid s; grid_size := n; leds := leds s |}.

Definition add_led (s : tm1628) (l : tm1628_led) : tm1628 :=
  {| data := data s; text := text s; segment_mapping := segment_mapping s;
     grid := grid s; grid_size := grid_size s; leds := leds s ++ [l] |}.

(** The zeroed structure [devm_kzalloc] hands to probe. *)
Definition kzalloc_tm1628 : tm1628 :=
  {| data := replicate 7 0; text := replicate 8 0;
     segment_mapping := replicate 7 0; grid := replicate 7 0;
     grid_size := 0; leds := [] |}.

(** What the driver asks of the rest of the kernel. *)
Inductive event :=
| EvMsleep (ms : Z)
| EvSpi (xfers : list (list Z))   (* one SPI message: the tx bytes of each transfer *)
| EvLedRegister (g sg : Z)        (* devm_led_classdev_register_ext *)
| EvCreateFile                    (* device_create_file(dev_attr_display_text) *)
| EvRemoveFile.

Record world := {
  ctrl : tm1628;
  trace : list event
}.

Inductive outcome (A : Type) : Type :=
| Ret (a : A) (w : world)
| Fault (w : world).
Arguments Ret {A} a w.
Arguments Fault {A} w.

Definition M (A : Type) : Type := world -> outcome A.

#[global] Instance M_ret : MRet M := fun A a w => Ret a w.

#[global] Instance M_bind : MBind M := fun A B k m w =>
  match m w with
  | Ret a w' => k a w'
  | Fault w' => Fault w'
  end.

Definition get_ctrl : M tm1628 := fun w => Ret (ctrl w) w.

Definition put_ctrl (s : tm1628) : M unit :=
  fun w => Ret tt {| ctrl := s; trace := trace w |}.

Definition fault {A} : M A := fun w => Fault w.

Definition emit (e : event) : M unit :=
  fun w => Ret tt {| ctrl := ctrl w; trace := trace w ++ [e] |}.

(** [for (i = lo; i < hi; i++) body(i)] *)
Definition for_loop (lo hi : Z) (body : Z -> M unit) : M unit :=
  foldr (fun i k => body i;; k) (mret tt) (seqZ lo (hi - lo)).

(** An access that is [None] is outside its array. *)
Definition checked {A} (o : option A) : M A :=
  match o with
  | Some a => mret a
  | None => fault
  end.

Section Driver.

(** Byte order of the host; [__le16] values are kept in device order. *)
Variable big_endian : bool.

(** Status returned by the external call that is the last event of the
    given trace (an SPI message, an LED or a sysfs registration). *)
Variable status : list event -> Z.

Definition cpu_to_le16 (x : Z) : Z :=
  let v := u16 x in if big_endian then swab16 v else v.

(** The two bytes a stored 16-bit word occupies in memory, lowest address first. *)
Definition mem_bytes16 (v : Z) : list Z :=
  if big_endian then [Z.shiftr v 8; Z.land v 255]
  else [Z.land v 255; Z.shiftr v 8].

Definition call (e : event) : M Z :=
  fun w => let tr := trace w ++ [e] in
           Ret (status tr) {| ctrl := ctrl w; trace := tr |}.

Definition spi_sync_transfer (xfers : list (list Z)) : M Z := call (EvSpi xfers).

Definition spi_write (buf : list Z) : M Z := spi_sync_transfer [buf].

(** ** Protocol encoder *)

(* Command 1: Display Mode Setting *)
Definition tm1628_set_display_mode (grid_mode : Z) : M Z :=
  let cmd := u8 (Z.lor TM1628_CMD_DISPLAY_MODE grid_mode) in
  spi_write [cmd].

(* Command 3: Address Setting; the parameter is a u8 *)
Definition tm1628_set_address (offset : Z) : M Z :=
  let offset := u8 offset in
  let cmd := u8 (Z.lor TM1628_CMD_SET_ADDRESS (offset * 2)) in
  spi_write [cmd].

(* Command 2: Data Setting; [offset] and [len] are unsigned int.  The
   transfer descriptors are set up before the check but nothing of the
   buffer is read until the transfer runs. *)
Definition tm1628_write_data (offset len : Z) : M Z :=
  let cmd := u8 (Z.lor TM1628_CMD_DATA TM1628_DATA_WRITE_DATA) in
  if u32 (offset + len) >? MAX_GRID_SIZE then mret (- EINVAL)
  else
    tm1628_set_address offset;;
    s ← get_ctrl;
    words ← checked (arr_slice (data s) offset len);
    spi_sync_transfer [[cmd]; concat (map mem_bytes16 words)].

(* Command 4: Display Control *)
Definition tm1628_set_display_ctrl (on : bool) : M Z :=
  let cmd := Z.lor TM1628_CMD_DISPLAY_CTRL TM1628_BRIGHTNESS_MAX in
  let cmd := if on then Z.lor cmd TM1628_DISPLAY_CTRL_DISPLAY_ON else cmd in
  spi_write [u8 cmd].

(** ** Text renderer *)

(** [char] is signed on some architectures and unsigned on others. *)
Variable char_signed : bool.

Definition char_to_int (b : Z) : Z :=
  if char_signed && (128 <=? b) then b - 256 else b.

(** The table [MAP_ASCII7SEG_ALPHANUM] of uapi/linux/map_to_7segment.h,
    one 7-bit pattern per character code. *)
Variable map_seg7 : list Z.

(** [map_to_seg7] of uapi/linux/map_to_7segment.h, the header the driver
    includes:
    [return c >= 0 && c < sizeof(map->table) ? map->table[c] : -EINVAL;] *)
Definition map_to_seg7 (c : Z) : Z :=
  match arr_get map_seg7 c with
  | Some pattern => pattern
  | None => - EINVAL
  end.

(** The inner loop of [tm1628_show_text]: bit [j] of the raw pattern is moved
    to bit [segment_mapping[j] - 1]. *)
Definition remap_step (sm : list Z) (char7_raw : Z) (acc : option Z) (j : Z)
  : option Z :=
  char7 ← acc;
  if Z.land char7_raw (BIT j) =? 0 then Some char7
  else m ← arr_get sm j; Some (to_int (Z.lor char7 (BIT (m - 1)))).

Definition remap (sm : list Z) (char7_raw : Z) : option Z :=
  foldl (remap_step sm char7_raw) (Some 0) (seqZ 0 7).

(** One iteration of the outer loop of [tm1628_show_text]. *)
Definition show_text_iter (msg_len i : Z) : M unit :=
  s ← get_ctrl;
  g ← checked (arr_get (grid s) i);
  let pos := g - 1 in
  if i <? msg_len then
    c ← checked (arr_get (text s) i);
    let char7_raw := map_to_seg7 (char_to_int c) in
    char7 ← checked (remap (segment_mapping s) char7_raw);
    d ← checked (arr_set (data s) pos (cpu_to_le16 char7));
    put_ctrl (set_data s d)
  else
    d ← checked (arr_set (data s) pos 0);
    put_ctrl (set_data s d).

Definition tm1628_show_text : M Z :=
  s ← get_ctrl;
  msg_len ← checked (strlen (text s));
  for_loop 0 (grid_size s) (show_text_iter msg_len);;
  tm1628_write_data 0 (u32 (grid_size s)).

(** ** LED bit controller *)

Definition tm1628_led_set_brightness (led : tm1628_led) (brightness : Z) : M Z :=
  let offset := to_int (led_grid led - 1) in
  let bit := cpu_to_le16 (BIT (led_seg led - 1)) in
  s ← get_ctrl;
  old ← checked (arr_get (data s) offset);
  let new := if brightness =? LED_OFF
             then u16 (Z.land old (Z.lnot bit))
             else u16 (Z.lor old bit) in
  d ← checked (arr_set (data s) offset new);
  put_ctrl (set_data s d);;
  tm1628_write_data (u32 offset) 1.

Definition tm1628_led_get_brightness (led : tm1628_led) : M Z :=
  let offset := to_int (led_grid led - 1) in
  let bit := cpu_to_le16 (BIT (led_seg led - 1)) in
  s ← get_ctrl;
  d ← checked (arr_get (data s) offset);
  let on := negb (Z.land d bit =? 0) in
  mret (if on then LED_ON else LED_OFF).

(** The LED is entered into [leds] when its registration succeeded; the
    slot of a failed registration is reused by the next child. *)
Definition tm1628_register_led (g sg : Z) : M Z :=
  ret ← call (EvLedRegister g sg);
  (if ret =? 0
   then s ← get_ctrl; put_ctrl (add_led s {| led_grid := g; led_seg := sg |})
   else mret tt);;
  mret ret.

(** ** The text attribute *)

(** [isprint] of linux/ctype.h, on the byte as an unsigned char. *)
Variable isprint : Z -> bool.

(** [for (i = 0; i < count && isprint(buf[i]); i++) s->text[i] = buf[i];]
    started at index [i] with the bytes [buf] still ahead; the result is the
    final [i]. *)
Fixpoint copy_printable (buf : list Z) (i count : Z) : M Z :=
  if i <? count then
    match buf with
    | [] => fault
    | c :: rest =>
        if isprint c then
          s ← get_ctrl;
          t ← checked (arr_set (text s) i c);
          put_ctrl (set_text s t);;
          copy_printable rest (i + 1) count
        else mret i
    end
  else mret i.

(** [buf] holds the [count] bytes written; [grid_size + 1] is converted to
    size_t for the comparison, which changes nothing for a grid size that
    probe accepted. *)
Definition display_text_store (buf : list Z) (count : Z) : M Z :=
  s ← get_ctrl;
  if count >? grid_size s + 1 then mret (- E2BIG)
  else
    i ← copy_printable buf 0 count;
    s ← get_ctrl;
    t ← checked (arr_set (text s) i 0);
    put_ctrl (set_text s t);;
    ret ← tm1628_show_text;
    if ret <? 0 then mret ret else mret count.

(** ** Probe *)

(** What [fwnode_property_read_u32_array(child, "reg", reg, 2)] yields for
    one child node. *)
Record child_node := {
  reg_status : Z;
  reg0 : Z;
  reg1 : Z
}.

(** The answers of the firmware-node interface during one probe. *)
Record config := {
  alloc_ok : bool;              (* devm_kzalloc succeeded *)
  children : list child_node;
  grid_count : Z;               (* device_property_count_u8(dev, "grid") *)
  grid_status : Z;              (* device_property_read_u8_array(dev, "grid", ...) *)
  grid_bytes : list Z;
  segmap_status : Z;            (* device_property_read_u8_array(dev, "segment-mapping", ...) *)
  segmap_bytes : list Z
}.

(** [IS_REACHABLE(CONFIG_LEDS_CLASS)] *)
Variable leds_class_reachable : bool.

(** The array after a successful read of [n] entries into it. *)
Definition fill (arr vals : list Z) (n : Z) : list Z :=
  take (Z.to_nat n) vals ++ drop (length (take (Z.to_nat n) vals)) arr.

(** [for (i = 0; i < n; i++) if (arr[i] < 1 || arr[i] > hi) return -EINVAL;]
    is passed exactly when this holds. *)
Definition table_ok (arr : list Z) (n hi : Z) : bool :=
  forallb (fun i => match arr_get arr i with
                    | Some v => negb ((v <? 1) || (v >? hi))
                    | None => false
                    end) (seqZ 0 n).

(** The body of [device_for_each_child_node]. *)
Definition probe_child (c : child_node) : M unit :=
  if negb (reg_status c =? 0) then mret tt
  else if (reg0 c =? 0) || (reg0 c >? MAX_GRID_SIZE) then mret tt
  else if (reg1 c =? 0) || (reg1 c >? MAX_SEGMENT_NUM) then mret tt
  else tm1628_register_led (reg0 c) (reg1 c);; mret tt.

Definition probe_children (cs : list child_node) : M unit :=
  foldr (fun c k => probe_child c;; k) (mret tt) cs.

Definition tm1628_spi_probe (cfg : config) : M Z :=
  if negb (alloc_ok cfg) then mret (- ENOMEM)
  else
    put_ctrl kzalloc_tm1628;;
    emit (EvMsleep 200);;
    ret ← tm1628_write_data 0 MAX_GRID_SIZE;
    if negb (ret =? 0) then mret ret
    else
      tm1628_set_display_mode TM1628_DISPLAY_MODE_6_12;;
      tm1628_set_display_ctrl true;;
      (if leds_class_reachable then probe_children (children cfg) else mret tt);;
      let ret := grid_count cfg in
      if (ret <? 1) || (ret >? MAX_GRID_SIZE) then mret (- EINVAL)
      else
        s ← get_ctrl;
        put_ctrl (set_grid_size s ret);;
        let ret := grid_status cfg in
        if ret <? 0 then mret ret
        else
          s ← get_ctrl;
          put_ctrl (set_grid s (fill (grid s) (grid_bytes cfg) (grid_size s)));;
          s ← get_ctrl;
          if negb (table_ok (grid s) (grid_size s) (grid_size s)) then mret (- EINVAL)
          else
            let ret := segmap_status cfg in
            if ret <? 0 then mret ret
            else
              put_ctrl (set_segment_mapping s (fill (segment_mapping s) (segmap_bytes cfg) 7));;
              s ← get_ctrl;
              if negb (table_ok (segment_mapping s) 7 MAX_SEGMENT_NUM) then mret (- EINVAL)
              else
                ret ← call EvCreateFile;
                if negb (ret =? 0) then mret ret else mret 0.

Definition tm1628_spi_remove : M Z :=
  emit EvRemoveFile;;
  tm1628_set_display_ctrl false;;
  mret 0.

Definition tm1628_spi_shutdown : M unit :=
  tm1628_set_display_ctrl false;; mret tt.

(** ** Vocabulary of the properties *)

(** The address-set command for a start offset. *)
Definition address_cmd (offset : Z) : event :=
  EvSpi [[u8 (Z.lor TM1628_CMD_SET_ADDRESS (u8 offset * 2))]].

(** The data burst carrying [len] words of [d] from [offset] on. *)
Definition data_burst (d : list Z) (offset len : Z) : event :=
  EvSpi [[u8 (Z.lor TM1628_CMD_DATA TM1628_DATA_WRITE_DATA)];
         concat (map mem_bytes16 (take (Z.to_nat len) (drop (Z.to_nat offset) d)))].

(** The two bus messages of one [write_data(offset, len)]. *)
Definition write_data_events (d : list Z) (offset len : Z) : list event :=
  [address_cmd offset; data_burst d offset len].

(** The state probe leaves behind when it succeeds: arrays of their declared
    sizes and tables that passed the two validation loops. *)
Definition configured (s : tm1628) : bool :=
  (length (data s) =? 7)%nat && (length (text s) =? 8)%nat &&
  (length (segment_mapping s) =? 7)%nat && (length (grid s) =? 7)%nat &&
  (1 <=? grid_size s) && (grid_size s <=? MAX_GRID_SIZE) &&
  table_ok (grid s) (grid_size s) (grid_size s) &&
  table_ok (segment_mapping s) 7 MAX_SEGMENT_NUM.

(** Grid router: the buffer offset backing logical digit [i]. *)
Definition physical_offset (s : tm1628) (i : Z) : Z :=
  default 0 (arr_get (grid s) i) - 1.

(** The word the renderer computes for logical digit [i] of a text of length
    [n]: the remapped pattern of the character, or blank past the text. *)
Definition render_cell (s : tm1628) (n i : Z) : Z :=
  if i <? n then
    cpu_to_le16
      (default 0 (remap (segment_mapping s)
                    (map_to_seg7 (char_to_int (default 0 (arr_get (text s) i))))))
  else 0.

(** The buffer after the stores for the logical digits [0 .. k-1], done in
    that order. *)
Definition render_stores (s : tm1628) (n k : Z) : list Z :=
  foldl (fun d i => <[Z.to_nat (physical_offset s i) := render_cell s n i]> d)
        (data s) (seqZ 0 k).

(** Segment remapper as the specification words it: bit [b] of the result is
    set exactly when some logical bit [j] of the pattern is set and routed
    to [b]. *)
Definition remapped_bit (sm : list Z) (raw b : Z) : bool :=
  existsb (fun j => Z.testbit raw j && (default 0 (arr_get sm j) - 1 =? b))
          (seqZ 0 7).

(** Where bit [k] of a CPU-order word sits in the stored [__le16] value. *)
Definition le_bit_index (k : Z) : Z :=
  if big_endian then (if k <? 8 then k + 8 else k - 8) else k.

(** The mask of an LED output in its buffer word, and the word
    [tm1628_led_set_brightness] stores over [old]. *)
Definition led_mask (led : tm1628_led) : Z := cpu_to_le16 (BIT (led_seg led - 1)).

Definition led_new_word (led : tm1628_led) (brightness old : Z) : Z :=
  if brightness =? LED_OFF then u16 (Z.land old (Z.lnot (led_mask led)))
  else u16 (Z.lor old (led_mask led)).

(** The leading run of printable bytes of a buffer. *)
Fixpoint printable_prefix (buf : list Z) : list Z :=
  match buf with
  | [] => []
  | c :: rest => if isprint c then c :: printable_prefix rest else []
  end.

(** The text array after the bytes [p] were stored from index [i] on. *)
Fixpoint store_chars (t : list Z) (i : nat) (p : list Z) : list Z :=
  match p with
  | [] => t
  | c :: rest => store_chars (<[i := c]> t) (S i) rest
  end.

(** ** Vocabulary of probe *)

Definition is_led_register (e : event) : bool :=
  match e with
  | EvLedRegister _ _ => true
  | _ => false
  end.

Definition mode_cmd : event :=
  EvSpi [[u8 (Z.lor TM1628_CMD_DISPLAY_MODE TM1628_DISPLAY_MODE_6_12)]].

Definition display_on_cmd : event :=
  EvSpi [[u8 (Z.lor (Z.lor TM1628_CMD_DISPLAY_CTRL TM1628_BRIGHTNESS_MAX)
                    TM1628_DISPLAY_CTRL_DISPLAY_ON)]].

(** The grid and segment tables probe reads into the zeroed structure. *)
Definition grid_table (cfg : config) : list Z :=
  fill (replicate 7 0) (grid_bytes cfg) (grid_count cfg).

Definition segment_table (cfg : config) : list Z :=
  fill (replicate 7 0) (segmap_bytes cfg) 7.

(** Configuration validation as probe performs it: the display length, the
    two property reads and the two range loops. *)
Definition tables_valid (cfg : config) : bool :=
  (1 <=? grid_count cfg) && (grid_count cfg <=? MAX_GRID_SIZE) &&
  (0 <=? grid_status cfg) &&
  table_ok (grid_table cfg) (grid_count cfg) (grid_count cfg) &&
  (0 <=? segmap_status cfg) &&
  table_ok (segment_table cfg) 7 MAX_SEGMENT_NUM.

(** The events of probe up to and including the screen clear. *)
Definition probe_clear_events : list event :=
  EvMsleep 200 :: write_data_events (replicate 7 0) 0 MAX_GRID_SIZE.

(** The controller state after a successful probe that registered [ls]. *)
Definition probed_state (cfg : config) (ls : list tm1628_led) : tm1628 :=
  {| data := replicate 7 0; text := replicate 8 0;
     segment_mapping := segment_table cfg; grid := grid_table cfg;
     grid_size := grid_count cfg; leds := ls |}.

(** ** Concrete data for the examples *)

(** The printable ASCII range. *)
Definition ascii_isprint (c : Z) : bool := (32 <=? c) && (c <? 127).

(** A font table of 128 entries holding the ten digits at their character
    codes, blank at every other code. *)
Definition seg7_digits : list Z :=
  replicate 48 0 ++ [63; 6; 91; 79; 102; 109; 125; 7; 127; 111] ++ replicate 70 0.

(** [isprint] over the kernel's Latin-1 character table: the ASCII
    printable range and the codes 160 to 255. *)
Definition latin1_isprint (c : Z) : bool :=
  ((32 <=? c) && (c <? 127)) || ((160 <=? c) && (c <=? 255)).

Definition bus_ok (_ : list event) : Z := 0.

(** Four digits wired straight through. *)
Definition display4 : tm1628 :=
  {| data := replicate 7 0; text := replicate 8 0;
     segment_mapping := [1; 2; 3; 4; 5; 6; 7]; grid := [1; 2; 3; 4; 0; 0; 0];
     grid_size := 4; leds := [] |}.

(** Seven digits wired straight through. *)
Definition display7 : tm1628 :=
  {| data := replicate 7 0; text := replicate 8 0;
     segment_mapping := [1; 2; 3; 4; 5; 6; 7]; grid := [1; 2; 3; 4; 5; 6; 7];
     grid_size := 7; leds := [] |}.

(** The four-digit display holding the text "12". *)
Definition display4_12 : tm1628 :=
  set_text display4 [49; 50; 0; 0; 0; 0; 0; 0].

Definition boot (s : tm1628) : world := {| ctrl := s; trace := [] |}.

(** A two-digit display whose grid table routes both digits to grid 1, with
    one LED on grid 2. *)
Definition cfg_aliased : config :=
  {| alloc_ok := true;
     children := [{| reg_status := 0; reg0 := 2; reg1 := 1 |}];
     grid_count := 2; grid_status := 0; grid_bytes := [1; 1];
     segmap_status := 0; segmap_bytes := [1; 2; 3; 4; 5; 6; 7] |}.

(** One valid LED child and no "grid" property (its count is an error). *)
Definition cfg_no_grid : config :=
  {| alloc_ok := true;
     children := [{| reg_status := 0; reg0 := 1; reg1 := 1 |}];
     grid_count := - EINVAL; grid_status := - EINVAL; grid_bytes := [];
     segmap_status := 0; segmap_bytes := [1; 2; 3; 4; 5; 6; 7] |}.

(** ** Reading the text attribute, and further vocabulary *)

(** Modelled from the spec: [sysfs_emit] is not part of the sources at hand.
    [display_text_show] is [sysfs_emit(buf, "%s\n", s->text)]: a read of the
    attribute yields the text up to its terminator followed by a newline,
    and the result is the number of bytes written. *)
Definition display_text_show : M (list Z * Z) :=
  s ← get_ctrl;
  n ← checked (strlen (text s));
  let out := take (Z.to_nat n) (text s) ++ [10] in
  mret (out, Z.of_nat (length out)).

(** Coordinates that pass the two checks of probe's child loop. *)
Definition led_ok (l : tm1628_led) : bool :=
  (1 <=? led_grid l) && (led_grid l <=? MAX_GRID_SIZE) &&
  (1 <=? led_seg l) && (led_seg l <=? MAX_SEGMENT_NUM).

(** A child node that the loop passes over without registering anything. *)
Definition child_skipped (c : child_node) : bool :=
  negb (reg_status c =? 0) ||
  ((reg0 c =? 0) || (reg0 c >? MAX_GRID_SIZE)) ||
  ((reg1 c =? 0) || (reg1 c >? MAX_SEGMENT_NUM)).

(** The registrations the child loop attempts: one for each child that is
    not passed over, in the order of the children. *)
Definition registration_attempts (cs : list child_node) : list event :=
  map (fun c => EvLedRegister (reg0 c) (reg1 c))
      (List.filter (fun c => negb (child_skipped c)) cs).

(** The LEDs the child loop keeps when it starts after the trace [tr]: those
    whose registration returned 0. *)
Fixpoint kept_leds (tr : list event) (cs : list child_node) : list tm1628_led :=
  match cs with
  | [] => []
  | c :: rest =>
      if child_skipped c then kept_leds tr rest
      else
        let tr' := tr ++ [EvLedRegister (reg0 c) (reg1 c)] in
        (if status tr' =? 0
         then [{| led_grid := reg0 c; led_seg := reg1 c |}] else []) ++
        kept_leds tr' rest
  end.

(** The LED registrations of one probe. *)
Definition probe_led_events (cfg : config) : list event :=
  if leds_class_reachable then registration_attempts (children cfg) else [].

(** The "reg" cells of a child are u32 values. *)
Definition child_u32 (c : child_node) : bool :=
  (0 <=? reg0 c) && (0 <=? reg1 c).

(** A value that fits a 16-bit buffer word. *)
Definition word16 (x : Z) : Prop := 0 <= x < 2 ^ 16.

(** A bus on which every transfer fails with -EIO. *)
Definition bus_down (_ : list event) : Z := -5.

(** * Properties *)

(** ** Machine integers *)

Lemma u32_small (x : Z) : 0 <= x < 2 ^ 32 -> u32 x = x.
Proof. intros H. unfold u32. apply Z.mod_small. exact H. Qed.

Lemma u8_small (x : Z) : 0 <= x < 2 ^ 8 -> u8 x = x.
Proof. intros H. unfold u8. apply Z.mod_small. exact H. Qed.

Lemma u16_small (x : Z) : 0 <= x < 2 ^ 16 -> u16 x = x.
Proof. intros H. unfold u16. apply Z.mod_small. exact H. Qed.

Lemma to_int_small (x : Z) : 0 <= x < 2 ^ 31 -> to_int x = x.
Proof.
  intros H. unfold to_int. rewrite u32_small by lia.
  destruct (Z.ltb_spec x (2 ^ 31)); lia.
Qed.

Lemma BIT_pow2 (n : Z) : 0 <= n -> BIT n = 2 ^ n.
Proof. intros H. unfold BIT. rewrite Z.shiftl_1_l. reflexivity. Qed.

Lemma land_pow2_eqb (x n : Z) :
  0 <= n -> (Z.land x (2 ^ n) =? 0) = negb (Z.testbit x n).
Proof.
  intros Hn. destruct (Z.testbit x n) eqn:E; simpl.
  - apply Z.eqb_neq. intros H0.
    assert (Z.testbit (Z.land x (2 ^ n)) n = true) as Hb.
    { rewrite Z.land_spec, E, Z.pow2_bits_true by lia. reflexivity. }
    rewrite H0, Z.bits_0 in Hb. discriminate.
  - apply Z.eqb_eq. apply Z.bits_inj'. intros k Hk.
    rewrite Z.land_spec, Z.bits_0.
    destruct (Z.eq_dec k n) as [->|Hne].
    + rewrite E. reflexivity.
    + rewrite (Z.pow2_bits_false n k) by lia. apply andb_false_r.
Qed.

(** ** Checked arrays *)

Lemma arr_get_Some (l : list Z) (i v : Z) :
  arr_get l i = Some v <-> 0 <= i /\ l !! Z.to_nat i = Some v.
Proof.
  unfold arr_get. destruct (Z.leb_spec 0 i); split.
  - auto.
  - intros [_ H']. exact H'.
  - discriminate.
  - lia.
Qed.

Lemma arr_get_in_range (l : list Z) (i : Z) :
  0 <= i < Z.of_nat (length l) -> exists v, arr_get l i = Some v.
Proof.
  intros H. destruct (lookup_lt_is_Some_2 l (Z.to_nat i)) as [v Hv]; [lia|].
  exists v. apply arr_get_Some. split; [lia | exact Hv].
Qed.

Lemma arr_set_in_range (l : list Z) (i v : Z) :
  0 <= i < Z.of_nat (length l) -> arr_set l i v = Some (<[Z.to_nat i := v]> l).
Proof.
  intros H. unfold arr_set.
  destruct (Z.leb_spec 0 i); [|lia].
  destruct (Z.ltb_spec i (Z.of_nat (length l))); [|lia]. reflexivity.
Qed.

Lemma arr_set_out_of_range (l : list Z) (i v : Z) :
  Z.of_nat (length l) <= i -> arr_set l i v = None.
Proof.
  intros H. unfold arr_set.
  destruct (Z.ltb_spec i (Z.of_nat (length l))); [lia|].
  rewrite andb_false_r. reflexivity.
Qed.

Lemma arr_slice_in_range (l : list Z) (offset len : Z) :
  0 <= offset -> 0 <= len -> offset + len <= Z.of_nat (length l) ->
  arr_slice l offset len = Some (take (Z.to_nat len) (drop (Z.to_nat offset) l)).
Proof.
  intros H1 H2 H3. unfold arr_slice.
  destruct (Z.leb_spec 0 offset); [|lia].
  destruct (Z.leb_spec 0 len); [|lia].
  destruct (Z.leb_spec (offset + len) (Z.of_nat (length l))); [|lia].
  reflexivity.
Qed.

Lemma arr_get_insert_eq (l : list Z) (i v : Z) :
  0 <= i < Z.of_nat (length l) ->
  arr_get (<[Z.to_nat i := v]> l) i = Some v.
Proof.
  intros H. apply arr_get_Some. split; [lia|].
  apply list_lookup_insert_eq. lia.
Qed.

Lemma arr_get_insert_ne (l : list Z) (i j v : Z) :
  0 <= i -> 0 <= j -> i <> j ->
  arr_get (<[Z.to_nat i := v]> l) j = arr_get l j.
Proof.
  intros Hi Hj Hne. unfold arr_get.
  destruct (Z.leb_spec 0 j); [|lia].
  apply list_lookup_insert_ne. lia.
Qed.

(** ** Protocol encoder *)

Lemma write_data_in_range (w : world) (offset len : Z) :
  0 <= offset -> 0 <= len -> offset + len <= MAX_GRID_SIZE ->
  length (data (ctrl w)) = 7%nat ->
  let tr := trace w ++ write_data_events (data (ctrl w)) offset len in
  tm1628_write_data offset len w = Ret (status tr) {| ctrl := ctrl w; trace := tr |}.
Proof.
  intros Ho Hl Hs Hd tr. unfold tm1628_write_data, MAX_GRID_SIZE in *.
  rewrite u32_small by lia.
  destruct (Z.gtb_spec (offset + len) 7) as [|_]; [lia|].
  unfold mbind, M_bind, tm1628_set_address, spi_write, spi_sync_transfer, call,
    get_ctrl. simpl.
  rewrite arr_slice_in_range by lia. simpl.
  subst tr. unfold write_data_events, address_cmd, data_burst.
  rewrite <- !app_assoc. reflexivity.
Qed.

Lemma write_data_rejected (w : world) (offset len : Z) :
  0 <= offset -> 0 <= len -> offset + len < 2 ^ 32 ->
  MAX_GRID_SIZE < offset + len ->
  tm1628_write_data offset len w = Ret (- EINVAL) w.
Proof.
  intros Ho Hl Hs Hb. unfold tm1628_write_data.
  rewrite u32_small by lia.
  destruct (Z.gtb_spec (offset + len) MAX_GRID_SIZE); [reflexivity | lia].
Qed.

Lemma testbit_u16_high (x k : Z) :
  0 <= x < 2 ^ 16 -> 16 <= k -> Z.testbit x k = false.
Proof.
  intros Hx Hk. apply Z.bits_above_log2; [lia|].
  destruct (Z.eq_dec x 0) as [->|]; [simpl; lia|].
  assert (Z.log2 x < 16) by (apply Z.log2_lt_pow2; lia). lia.
Qed.

(** On the wire every word goes out least-significant byte first, whatever
    the byte order of the host. *)
Lemma mem_bytes16_cpu_to_le16 (x : Z) :
  0 <= x < 2 ^ 16 ->
  mem_bytes16 (cpu_to_le16 x) = [Z.land x 255; Z.shiftr x 8].
Proof.
  intros Hx. unfold mem_bytes16, cpu_to_le16. rewrite u16_small by exact Hx.
  destruct big_endian; [|reflexivity].
  unfold swab16. f_equal; [|f_equal].
  - apply Z.bits_inj'. intros k Hk.
    rewrite Z.shiftr_spec, Z.lor_spec, Z.shiftl_spec by lia.
    rewrite Z.shiftr_spec by lia.
    replace (k + 8 - 8) with k by lia.
    rewrite (testbit_u16_high x (k + 8 + 8)) by lia. apply orb_false_r.
  - apply Z.bits_inj'. intros k Hk.
    rewrite Z.land_spec, Z.lor_spec, Z.shiftl_spec, !Z.shiftr_spec by lia.
    change 255 with (Z.ones 8).
    destruct (Z.ltb_spec k 8).
    + rewrite Z.ones_spec_low by lia. rewrite andb_true_r.
      rewrite (Z.testbit_neg_r _ (k - 8)) by lia. reflexivity.
    + rewrite Z.ones_spec_high by lia. rewrite andb_false_r.
      symmetry. apply testbit_u16_high; [exact Hx | lia].
Qed.

(** ** Validated tables *)

Lemma table_ok_get (arr : list Z) (n hi i : Z) :
  table_ok arr n hi = true -> 0 <= i < n ->
  exists v, arr_get arr i = Some v /\ 1 <= v <= hi.
Proof.
  intros Hok Hi. unfold table_ok in Hok.
  rewrite forallb_forall in Hok.
  specialize (Hok i). rewrite <- list_elem_of_In, elem_of_seqZ in Hok.
  specialize (Hok ltac:(lia)).
  destruct (arr_get arr i) as [v|]; [|discriminate].
  exists v. split; [reflexivity|].
  apply negb_true_iff, orb_false_iff in Hok. destruct Hok as [H1 H2].
  apply Z.ltb_ge in H1. destruct (Z.gtb_spec v hi); [discriminate | lia].
Qed.

Lemma configured_inv (s : tm1628) :
  configured s = true ->
  length (data s) = 7%nat /\ length (text s) = 8%nat /\
  length (segment_mapping s) = 7%nat /\ length (grid s) = 7%nat /\
  1 <= grid_size s <= MAX_GRID_SIZE /\
  table_ok (grid s) (grid_size s) (grid_size s) = true /\
  table_ok (segment_mapping s) 7 MAX_SEGMENT_NUM = true.
Proof.
  unfold configured. rewrite !andb_true_iff, !Nat.eqb_eq, !Z.leb_le. tauto.
Qed.

Lemma configured_set_data (s : tm1628) (d : list Z) :
  configured s = true -> length d = 7%nat -> configured (set_data s d) = true.
Proof.
  intros Hc Hd. apply configured_inv in Hc.
  unfold configured. simpl. rewrite Hd.
  rewrite !andb_true_iff, !Nat.eqb_eq, !Z.leb_le. tauto.
Qed.

Lemma configured_set_text (s : tm1628) (t : list Z) :
  configured s = true -> length t = 8%nat -> configured (set_text s t) = true.
Proof.
  intros Hc Ht. apply configured_inv in Hc.
  unfold configured. simpl. rewrite Ht.
  rewrite !andb_true_iff, !Nat.eqb_eq, !Z.leb_le. tauto.
Qed.

(** ** Segment remapper *)

Lemma remap_step_Some (sm : list Z) (raw acc j : Z) :
  remap_step sm raw (Some acc) j =
  if Z.land raw (BIT j) =? 0 then Some acc
  else match arr_get sm j with
       | Some m => Some (to_int (Z.lor acc (BIT (m - 1))))
       | None => None
       end.
Proof. reflexivity. Qed.

Lemma remap_fold (sm : list Z) (raw : Z) (js : list Z) (acc : Z) :
  (forall j, j ∈ js -> 0 <= j /\ exists m, arr_get sm j = Some m /\ 1 <= m <= MAX_SEGMENT_NUM) ->
  0 <= acc < 2 ^ 16 ->
  exists v, foldl (remap_step sm raw) (Some acc) js = Some v /\
            0 <= v < 2 ^ 16 /\
            forall b, 0 <= b ->
              Z.testbit v b =
              Z.testbit acc b ||
              existsb (fun j => Z.testbit raw j && (default 0 (arr_get sm j) - 1 =? b)) js.
Proof.
  revert acc. induction js as [|j js IH]; intros acc Hjs Hacc.
  - exists acc. split; [reflexivity|]. split; [exact Hacc|].
    intros b _. simpl. rewrite orb_false_r. reflexivity.
  - destruct (Hjs j) as (Hj & m & Hm & Hrange); [left|].
    assert (forall j', j' ∈ js -> 0 <= j' /\
              exists m, arr_get sm j' = Some m /\ 1 <= m <= MAX_SEGMENT_NUM) as Hjs'.
    { intros j' Hin. apply Hjs. right. exact Hin. }
    cbn [foldl]. rewrite remap_step_Some.
    rewrite BIT_pow2, land_pow2_eqb by lia.
    cbn [existsb].
    destruct (Z.testbit raw j) eqn:Ebit; simpl.
    + rewrite Hm. cbn [negb default]. unfold MAX_SEGMENT_NUM in Hrange.
      rewrite BIT_pow2 by lia.
      assert (0 <= Z.lor acc (2 ^ (m - 1)) < 2 ^ 16) as Hlor.
      { assert (0 <= 2 ^ (m - 1) < 2 ^ 16) as Hp.
        { split; [apply Z.pow_nonneg; lia|].
          apply Z.pow_lt_mono_r; lia. }
        split; [apply Z.lor_nonneg; lia|].
        destruct (Z.eq_dec (Z.lor acc (2 ^ (m - 1))) 0) as [->|Hnz]; [lia|].
        apply Z.log2_lt_pow2; [assert (0 <= Z.lor acc (2 ^ (m - 1))) by (apply Z.lor_nonneg; lia); lia|].
        rewrite Z.log2_lor by lia.
        apply Z.max_lub_lt.
        - destruct (Z.eq_dec acc 0) as [->|]; [simpl; lia|].
          apply Z.log2_lt_pow2; lia.
        - rewrite Z.log2_pow2 by lia. lia. }
      rewrite to_int_small by lia.
      destruct (IH _ Hjs' Hlor) as (v & Hv & Hvr & Hbits).
      exists v. split; [exact Hv|]. split; [exact Hvr|].
      intros b Hb. rewrite Hbits by lia.
      rewrite Z.lor_spec, <- orb_assoc. f_equal.
      f_equal. change (id m) with m.
      destruct (Z.eqb_spec (m - 1) b) as [Heq|Hne].
      * rewrite Heq. apply Z.pow2_bits_true. lia.
      * apply Z.pow2_bits_false. lia.
    + destruct (IH _ Hjs' Hacc) as (v & Hv & Hvr & Hbits).
      exists v. split; [exact Hv|]. split; [exact Hvr|].
      intros b Hb. rewrite Hbits by lia. reflexivity.
Qed.

Lemma remap_ok (sm : list Z) (raw : Z) :
  table_ok sm 7 MAX_SEGMENT_NUM = true ->
  exists v, remap sm raw = Some v /\ 0 <= v < 2 ^ 16 /\
            forall b, 0 <= b -> Z.testbit v b = remapped_bit sm raw b.
Proof.
  intros Hok. unfold remap, remapped_bit.
  destruct (remap_fold sm raw (seqZ 0 7) 0) as (v & Hv & Hr & Hb).
  - intros j Hj. apply elem_of_seqZ in Hj. split; [lia|].
    apply (table_ok_get _ _ _ _ Hok). lia.
  - lia.
  - exists v. split; [exact Hv|]. split; [exact Hr|].
    intros b Hb0. rewrite Hb by lia. rewrite Z.bits_0. reflexivity.
Qed.

Lemma remap_blank (sm : list Z) : remap sm 0 = Some 0.
Proof. reflexivity. Qed.

(** ** Counted loops *)

Lemma foldr_bind_tail (body : Z -> M unit) (l : list Z) (k : M unit) (w : world) :
  foldr (fun i k => body i;; k) k l w =
  (foldr (fun i k => body i;; k) (mret tt) l;; k) w.
Proof.
  revert w. induction l as [|i l IH]; intros w.
  - reflexivity.
  - simpl. unfold mbind, M_bind. destruct (body i w) as [[] w'|w']; [|reflexivity].
    apply IH.
Qed.

Lemma for_loop_snoc (lo hi : Z) (body : Z -> M unit) (w : world) :
  lo <= hi ->
  for_loop lo (hi + 1) body w = (for_loop lo hi body;; body hi) w.
Proof.
  intros H. unfold for_loop.
  replace (hi + 1 - lo) with ((hi - lo) + 1) by lia.
  rewrite seqZ_app by lia. rewrite foldr_app.
  replace (lo + (hi - lo)) with hi by lia.
  rewrite foldr_bind_tail. unfold mbind, M_bind.
  match goal with
  | |- context [foldr ?f ?a (seqZ lo (hi - lo)) w] =>
      destruct (foldr f a (seqZ lo (hi - lo)) w) as [[] w'|w']; [|reflexivity]
  end.
  change (seqZ hi 1) with [hi]. simpl. unfold mbind, M_bind.
  destruct (body hi w') as [[] w''|w'']; reflexivity.
Qed.

Lemma for_loop_empty (lo : Z) (body : Z -> M unit) : for_loop lo lo body = mret tt.
Proof. unfold for_loop. rewrite Z.sub_diag. reflexivity. Qed.

(** ** Text renderer *)

Lemma render_stores_0 (s : tm1628) (n : Z) : render_stores s n 0 = data s.
Proof. reflexivity. Qed.

Lemma render_stores_succ (s : tm1628) (n k : Z) :
  0 <= k ->
  render_stores s n (k + 1) =
  <[Z.to_nat (physical_offset s k) := render_cell s n k]> (render_stores s n k).
Proof.
  intros Hk. unfold render_stores.
  rewrite seqZ_app by lia. rewrite foldl_app. reflexivity.
Qed.

Lemma render_stores_length (s : tm1628) (n k : Z) :
  length (render_stores s n k) = length (data s).
Proof.
  unfold render_stores. generalize (seqZ 0 k) as l. generalize (data s) as d.
  intros d l. revert d. induction l as [|i l IH]; intros d; simpl.
  - reflexivity.
  - rewrite IH. apply length_insert.
Qed.

(** One iteration of the loop stores the word of digit [i] at its physical
    offset and touches nothing else. *)
Lemma show_text_iter_run (s : tm1628) (tr : list event) (d : list Z) (n i : Z) :
  configured s = true -> length d = 7%nat -> 0 <= i < grid_size s ->
  show_text_iter n i {| ctrl := set_data s d; trace := tr |} =
  Ret tt {| ctrl := set_data s (<[Z.to_nat (physical_offset s i) := render_cell s n i]> d);
            trace := tr |}.
Proof.
  intros Hc Hd Hi.
  destruct (configured_inv _ Hc) as (_ & Ht & _ & _ & Hg & Hgt & Hsm).
  unfold MAX_GRID_SIZE in Hg.
  destruct (table_ok_get _ _ _ _ Hgt Hi) as (g & Hget & Hgr).
  unfold show_text_iter, physical_offset, render_cell.
  unfold mbind, M_bind, get_ctrl, put_ctrl. cbn [ctrl trace set_data grid text
    segment_mapping data].
  rewrite Hget. cbn [checked mret M_ret].
  destruct (i <? n).
  - destruct (arr_get_in_range (text s) i) as [c Hcget]; [lia|].
    rewrite Hcget. cbn [checked mret M_ret].
    destruct (remap_ok (segment_mapping s) (map_to_seg7 (char_to_int c)) Hsm)
      as (v & Hv & _).
    change (default 0 (Some c)) with c. rewrite Hv. cbn [checked mret M_ret].
    rewrite arr_set_in_range by lia. reflexivity.
  - rewrite arr_set_in_range by lia. reflexivity.
Qed.

Lemma show_text_loop_run (s : tm1628) (tr : list event) (n k : Z) :
  configured s = true -> 0 <= k <= grid_size s ->
  for_loop 0 k (show_text_iter n) {| ctrl := s; trace := tr |} =
  Ret tt {| ctrl := set_data s (render_stores s n k); trace := tr |}.
Proof.
  intros Hc [Hk0 Hk]. revert Hk. pattern k. apply natlike_ind; [| |exact Hk0].
  - intros _. rewrite for_loop_empty, render_stores_0. destruct s. reflexivity.
  - clear k Hk0. intros k Hk0 IH Hk. unfold Z.succ.
    rewrite for_loop_snoc by lia. unfold mbind, M_bind.
    rewrite IH by lia.
    rewrite show_text_iter_run; [|exact Hc| |lia].
    + rewrite render_stores_succ by lia. reflexivity.
    + rewrite render_stores_length. apply (configured_inv _ Hc).
Qed.

(** The whole render pass: the stores in index order, then one
    [write_data(0, grid_size)] whose status is the result. *)
Lemma show_text_run (w : world) (n : Z) :
  configured (ctrl w) = true -> strlen (text (ctrl w)) = Some n ->
  let d := render_stores (ctrl w) n (grid_size (ctrl w)) in
  let tr := trace w ++ write_data_events d 0 (grid_size (ctrl w)) in
  tm1628_show_text w = Ret (status tr) {| ctrl := set_data (ctrl w) d; trace := tr |}.
Proof.
  intros Hc Hn d tr.
  destruct (configured_inv _ Hc) as (Hd & _ & _ & _ & Hg & _). unfold MAX_GRID_SIZE in Hg.
  unfold tm1628_show_text, mbind at 1 2 3, M_bind, get_ctrl.
  rewrite Hn. cbn [checked mret M_ret].
  destruct w as [s tr0]. cbn [ctrl trace] in *.
  rewrite show_text_loop_run by (auto; lia).
  rewrite u32_small by lia.
  rewrite write_data_in_range; cbn [ctrl trace set_data data]; unfold MAX_GRID_SIZE; try lia.
  - reflexivity.
  - subst d. rewrite render_stores_length. exact Hd.
Qed.

Lemma physical_offset_range (s : tm1628) (i : Z) :
  configured s = true -> 0 <= i < grid_size s ->
  0 <= physical_offset s i < grid_size s.
Proof.
  intros Hc Hi. destruct (configured_inv _ Hc) as (_ & _ & _ & _ & _ & Hgt & _).
  destruct (table_ok_get _ _ _ _ Hgt Hi) as (g & Hget & Hgr).
  unfold physical_offset. rewrite Hget. simpl. lia.
Qed.

Lemma render_stores_last_from (s : tm1628) (n i m : Z) :
  configured s = true -> 0 <= i -> 0 <= m -> i + 1 + m <= grid_size s ->
  (forall j, i < j < i + 1 + m -> physical_offset s j <> physical_offset s i) ->
  arr_get (render_stores s n (i + 1 + m)) (physical_offset s i) =
  Some (render_cell s n i).
Proof.
  intros Hc Hi Hm. pattern m. apply natlike_ind; [| |exact Hm]; clear m Hm.
  - intros Hk _. rewrite Z.add_0_r, render_stores_succ by lia.
    apply arr_get_insert_eq. rewrite render_stores_length.
    destruct (configured_inv _ Hc) as (Hd & _ & _ & _ & Hg & _).
    unfold MAX_GRID_SIZE in Hg.
    pose proof (physical_offset_range s i Hc). lia.
  - intros m Hm IH Hk Hne.
    replace (i + 1 + Z.succ m) with ((i + 1 + m) + 1) by lia.
    rewrite render_stores_succ by lia.
    pose proof (physical_offset_range s i Hc).
    pose proof (physical_offset_range s (i + 1 + m) Hc).
    rewrite arr_get_insert_ne; [| lia | lia | apply Hne; lia].
    apply IH; [lia|]. intros j Hj. apply Hne. lia.
Qed.

(** The last store to a physical word decides its final value. *)
Lemma render_stores_last (s : tm1628) (n i k : Z) :
  configured s = true -> 0 <= i < k -> k <= grid_size s ->
  (forall j, i < j < k -> physical_offset s j <> physical_offset s i) ->
  arr_get (render_stores s n k) (physical_offset s i) = Some (render_cell s n i).
Proof.
  intros Hc Hik Hk Hne.
  pose proof (render_stores_last_from s n i (k - i - 1) Hc) as H.
  replace (i + 1 + (k - i - 1)) with k in H by lia.
  apply H; try lia. exact Hne.
Qed.

(** A word no logical digit is routed to keeps its value. *)
Lemma render_stores_untouched (s : tm1628) (n k p : Z) :
  configured s = true -> 0 <= k <= grid_size s -> 0 <= p ->
  (forall i, 0 <= i < k -> physical_offset s i <> p) ->
  arr_get (render_stores s n k) p = arr_get (data s) p.
Proof.
  intros Hc [Hk0 Hk] Hp. revert Hk. pattern k. apply natlike_ind; [| |exact Hk0].
  - intros _ _. reflexivity.
  - clear k Hk0. intros k Hk0 IH Hk Hne. unfold Z.succ.
    rewrite render_stores_succ by lia.
    pose proof (physical_offset_range s k Hc).
    rewrite arr_get_insert_ne; [| lia | lia | apply Hne; lia].
    apply IH; [lia|]. intros i Hi. apply Hne. lia.
Qed.

Lemma cpu_to_le16_0 : cpu_to_le16 0 = 0.
Proof. unfold cpu_to_le16. destruct big_endian; reflexivity. Qed.

Lemma render_cell_text (s : tm1628) (n i : Z) :
  configured s = true -> 0 <= i < grid_size s -> i < n ->
  exists c v, arr_get (text s) i = Some c /\
              remap (segment_mapping s) (map_to_seg7 (char_to_int c)) = Some v /\
              (forall b, 0 <= b ->
                 Z.testbit v b =
                 remapped_bit (segment_mapping s) (map_to_seg7 (char_to_int c)) b) /\
              render_cell s n i = cpu_to_le16 v.
Proof.
  intros Hc Hi Hn.
  destruct (configured_inv _ Hc) as (_ & Ht & _ & _ & Hg & _ & Hsm).
  unfold MAX_GRID_SIZE in Hg.
  destruct (arr_get_in_range (text s) i) as [c Hcget]; [lia|].
  destruct (remap_ok (segment_mapping s) (map_to_seg7 (char_to_int c)) Hsm)
    as (v & Hv & _ & Hbits).
  exists c, v. repeat split; try assumption.
  unfold render_cell. destruct (Z.ltb_spec i n); [|lia].
  rewrite Hcget. simpl. rewrite Hv. reflexivity.
Qed.

Lemma render_cell_past_text (s : tm1628) (n i : Z) :
  n <= i -> render_cell s n i = 0.
Proof.
  intros H. unfold render_cell. destruct (Z.ltb_spec i n); [lia | reflexivity].
Qed.

(** C2: one text-render pass stores, for each logical index i in
    [0, grid_size) in turn, at buffer offset grid[i] - 1 the remapped segment
    pattern of text[i] when i is below the text length and 0 otherwise,
    changing no other word, and then issues exactly one write_data(0,
    grid_size) carrying the resulting buffer; a word keeps the value of the
    last index routed to it. *)
Theorem show_text_renders_each_digit (w : world) (n : Z) :
  configured (ctrl w) = true -> strlen (text (ctrl w)) = Some n ->
  let s := ctrl w in
  let g := grid_size s in
  exists r w',
    tm1628_show_text w = Ret r w' /\
    (forall i, 0 <= i < g ->
       exists d,
         for_loop 0 i (show_text_iter n) w =
           Ret tt {| ctrl := set_data s d; trace := trace w |} /\
         for_loop 0 (i + 1) (show_text_iter n) w =
           Ret tt {| ctrl := set_data s (<[Z.to_nat (physical_offset s i) :=
                                            render_cell s n i]> d);
                     trace := trace w |} /\
         arr_get (grid s) i = Some (physical_offset s i + 1) /\
         0 <= physical_offset s i < Z.of_nat (length d)) /\
    (forall i, 0 <= i < g ->
       if i <? n then
         exists c v, arr_get (text s) i = Some c /\
           remap (segment_mapping s) (map_to_seg7 (char_to_int c)) = Some v /\
           (forall b, 0 <= b -> Z.testbit v b =
              remapped_bit (segment_mapping s) (map_to_seg7 (char_to_int c)) b) /\
           render_cell s n i = cpu_to_le16 v
       else render_cell s n i = 0) /\
    (exists d, for_loop 0 g (show_text_iter n) w =
                 Ret tt {| ctrl := set_data s d; trace := trace w |} /\
               ctrl w' = set_data s d /\
               trace w' = trace w ++ write_data_events d 0 g) /\
    (forall i, 0 <= i < g ->
       (forall j, i < j < g -> physical_offset s j <> physical_offset s i) ->
       arr_get (data (ctrl w')) (physical_offset s i) = Some (render_cell s n i)) /\
    r = status (trace w').
Proof.
  destruct w as [s tr]. cbn [ctrl trace]. intros Hc Hn.
  destruct (configured_inv _ Hc) as (Hd & _ & _ & _ & Hg & Hgt & _).
  unfold MAX_GRID_SIZE in Hg.
  eexists _, _.
  split; [apply (show_text_run {| ctrl := s; trace := tr |} n Hc Hn)|].
  cbn [ctrl trace set_data data].
  split; [|split; [|split; [|split]]].
  - intros i Hi. exists (render_stores s n i).
    rewrite !show_text_loop_run by (auto; lia).
    rewrite render_stores_succ by lia.
    split; [reflexivity|]. split; [reflexivity|].
    rewrite render_stores_length.
    pose proof (physical_offset_range s i Hc Hi) as Hp.
    split; [|lia].
    destruct (table_ok_get _ _ _ _ Hgt Hi) as (v & Hget & _).
    unfold physical_offset. rewrite Hget. simpl. f_equal. lia.
  - intros i Hi. destruct (Z.ltb_spec i n).
    + apply render_cell_text; assumption.
    + apply render_cell_past_text. assumption.
  - exists (render_stores s n (grid_size s)).
    rewrite show_text_loop_run by (auto; lia).
    repeat split.
  - intros i Hi Hlast.
    apply render_stores_last; auto; lia.
  - reflexivity.
Qed.

(** A position at or past the text length is stored as 0. *)
Lemma positions_past_text_are_blank (s : tm1628) (tr : list event) (d : list Z)
    (n i : Z) :
  configured s = true -> length d = 7%nat -> 0 <= i < grid_size s -> n <= i ->
  show_text_iter n i {| ctrl := set_data s d; trace := tr |} =
  Ret tt {| ctrl := set_data s (<[Z.to_nat (physical_offset s i) := 0]> d);
            trace := tr |}.
Proof.
  intros Hc Hd Hi Hn. rewrite show_text_iter_run by assumption.
  rewrite render_cell_past_text by exact Hn. reflexivity.
Qed.

(** ** LED bit controller *)

Lemma le_bit_index_range (k : Z) : 0 <= k < 16 -> 0 <= le_bit_index k < 16.
Proof.
  intros H. unfold le_bit_index.
  destruct big_endian; [destruct (Z.ltb_spec k 8)|]; lia.
Qed.

Lemma le_bit_index_inj (k k' : Z) :
  0 <= k < 16 -> 0 <= k' < 16 -> le_bit_index k = le_bit_index k' -> k = k'.
Proof.
  intros H H'. unfold le_bit_index.
  destruct big_endian; [destruct (Z.ltb_spec k 8), (Z.ltb_spec k' 8)|]; lia.
Qed.

(** The mask of a segment is a single bit of the stored word. *)
Lemma cpu_to_le16_BIT (k : Z) :
  0 <= k < 16 -> cpu_to_le16 (BIT k) = 2 ^ le_bit_index k.
Proof.
  intros H. unfold cpu_to_le16, le_bit_index.
  assert (k = 0 \/ k = 1 \/ k = 2 \/ k = 3 \/ k = 4 \/ k = 5 \/ k = 6 \/ k = 7 \/
          k = 8 \/ k = 9 \/ k = 10 \/ k = 11 \/ k = 12 \/ k = 13 \/ k = 14 \/
          k = 15) as Hk by lia.
  destruct big_endian;
    repeat (destruct Hk as [->|Hk]; [reflexivity|]); subst k; reflexivity.
Qed.

Lemma led_set_run (w : world) (led : tm1628_led) (brightness : Z) :
  length (data (ctrl w)) = 7%nat -> 1 <= led_grid led <= MAX_GRID_SIZE ->
  exists old,
    arr_get (data (ctrl w)) (led_grid led - 1) = Some old /\
    let d := <[Z.to_nat (led_grid led - 1) := led_new_word led brightness old]>
               (data (ctrl w)) in
    let tr := trace w ++ write_data_events d (led_grid led - 1) 1 in
    tm1628_led_set_brightness led brightness w =
    Ret (status tr) {| ctrl := set_data (ctrl w) d; trace := tr |}.
Proof.
  intros Hd Hg. unfold MAX_GRID_SIZE in Hg.
  destruct (arr_get_in_range (data (ctrl w)) (led_grid led - 1)) as [old Hold]; [lia|].
  exists old. split; [exact Hold|]. intros d tr.
  unfold tm1628_led_set_brightness.
  rewrite to_int_small by lia.
  unfold mbind at 1 2 3 4, M_bind, get_ctrl.
  rewrite Hold. cbn [checked mret M_ret].
  rewrite arr_set_in_range by lia. cbn [checked mret M_ret put_ctrl].
  rewrite u32_small by lia.
  rewrite write_data_in_range; cbn [ctrl trace set_data data];
    unfold MAX_GRID_SIZE; try lia.
  - reflexivity.
  - rewrite length_insert. exact Hd.
Qed.

Lemma led_get_run (w : world) (led : tm1628_led) :
  length (data (ctrl w)) = 7%nat -> 1 <= led_grid led <= MAX_GRID_SIZE ->
  exists d,
    arr_get (data (ctrl w)) (led_grid led - 1) = Some d /\
    tm1628_led_get_brightness led w =
    Ret (if negb (Z.land d (led_mask led) =? 0) then LED_ON else LED_OFF) w.
Proof.
  intros Hd Hg. unfold MAX_GRID_SIZE in Hg.
  destruct (arr_get_in_range (data (ctrl w)) (led_grid led - 1)) as [d Hget]; [lia|].
  exists d. split; [exact Hget|].
  unfold tm1628_led_get_brightness.
  rewrite to_int_small by lia.
  unfold mbind, M_bind, get_ctrl. rewrite Hget. reflexivity.
Qed.

Lemma led_mask_bit (led : tm1628_led) :
  1 <= led_seg led <= MAX_SEGMENT_NUM ->
  led_mask led = 2 ^ le_bit_index (led_seg led - 1) /\
  0 <= le_bit_index (led_seg led - 1) < 16.
Proof.
  intros H. unfold MAX_SEGMENT_NUM in H. unfold led_mask. split.
  - apply cpu_to_le16_BIT. lia.
  - apply le_bit_index_range. lia.
Qed.

Lemma led_new_word_testbit (led : tm1628_led) (brightness old m : Z) :
  1 <= led_seg led <= MAX_SEGMENT_NUM -> 0 <= m < 16 ->
  Z.testbit (led_new_word led brightness old) m =
  if m =? le_bit_index (led_seg led - 1)
  then negb (brightness =? LED_OFF)
  else Z.testbit old m.
Proof.
  intros Hs Hm. destruct (led_mask_bit led Hs) as [Hmask Hidx].
  unfold led_new_word. rewrite Hmask. unfold u16.
  destruct (brightness =? LED_OFF); simpl;
    rewrite Z.mod_pow2_bits_low by lia.
  - rewrite Z.land_spec, Z.lnot_spec by lia.
    destruct (Z.eqb_spec m (le_bit_index (led_seg led - 1))) as [->|Hne].
    + rewrite Z.pow2_bits_true by lia. apply andb_false_r.
    + rewrite Z.pow2_bits_false by lia. apply andb_true_r.
  - rewrite Z.lor_spec.
    destruct (Z.eqb_spec m (le_bit_index (led_seg led - 1))) as [->|Hne].
    + rewrite Z.pow2_bits_true by lia. apply orb_true_r.
    + rewrite Z.pow2_bits_false by lia. apply orb_false_r.
Qed.

(** C5: for a configured LED output, setting it on and reading it back gives
    on, setting it off and reading it back gives off, and setting it leaves
    the state read for every other configured output at a different (grid,
    segment) coordinate unchanged, also when both share a buffer word. *)
Theorem led_set_then_get (w : world) (led : tm1628_led) (brightness : Z) :
  length (data (ctrl w)) = 7%nat ->
  1 <= led_grid led <= MAX_GRID_SIZE -> 1 <= led_seg led <= MAX_SEGMENT_NUM ->
  exists r w',
    tm1628_led_set_brightness led brightness w = Ret r w' /\
    tm1628_led_get_brightness led w' =
      Ret (if brightness =? LED_OFF then LED_OFF else LED_ON) w' /\
    forall led',
      1 <= led_grid led' <= MAX_GRID_SIZE -> 1 <= led_seg led' <= MAX_SEGMENT_NUM ->
      (led_grid led', led_seg led') <> (led_grid led, led_seg led) ->
      exists on, tm1628_led_get_brightness led' w = Ret on w /\
                 tm1628_led_get_brightness led' w' = Ret on w'.
Proof.
  intros Hd Hg Hs.
  destruct (led_set_run w led brightness Hd Hg) as (old & Hold & Hset).
  cbv zeta in Hset. eexists _, _. split; [exact Hset|].
  assert (Hg' := Hg). unfold MAX_GRID_SIZE in Hg'.
  match type of Hset with _ = Ret _ ?w1 => set (w' := w1) end.
  assert (length (data (ctrl w')) = 7%nat) as Hd'.
  { subst w'. cbn [ctrl set_data data]. rewrite length_insert. exact Hd. }
  split.
  - destruct (led_get_run w' led Hd' Hg) as (d & Hget & Hrun).
    rewrite Hrun. f_equal.
    subst w'. cbn [ctrl set_data data] in Hget.
    rewrite arr_get_insert_eq in Hget by lia. injection Hget as <-.
    destruct (led_mask_bit led Hs) as [Hmask Hidx].
    rewrite Hmask. rewrite land_pow2_eqb, negb_involutive by lia.
    rewrite led_new_word_testbit by lia. rewrite Z.eqb_refl.
    destruct (brightness =? LED_OFF); reflexivity.
  - intros led' Hg2 Hs2 Hne.
    destruct (led_get_run w led' Hd Hg2) as (d & Hget & Hrun).
    destruct (led_get_run w' led' Hd' Hg2) as (d' & Hget' & Hrun').
    eexists. split; [exact Hrun|]. rewrite Hrun'. f_equal.
    destruct (led_mask_bit led' Hs2) as [Hmask' Hidx'].
    rewrite Hmask', !land_pow2_eqb by lia. do 2 f_equal.
    subst w'. cbn [ctrl set_data data] in Hget'.
    unfold MAX_GRID_SIZE in Hg2.
    destruct (Z.eq_dec (led_grid led') (led_grid led)) as [Heq|Hdiff].
    + rewrite Heq in Hget, Hget'.
      rewrite arr_get_insert_eq in Hget' by lia. injection Hget' as <-.
      rewrite Hold in Hget. injection Hget as <-.
      rewrite led_new_word_testbit by lia.
      destruct (Z.eqb_spec (le_bit_index (led_seg led' - 1))
                           (le_bit_index (led_seg led - 1))) as [Hidx|_];
        [|reflexivity].
      unfold MAX_SEGMENT_NUM in Hs, Hs2.
      apply le_bit_index_inj in Hidx; [|lia|lia].
      exfalso. apply Hne. f_equal; lia.
    + rewrite arr_get_insert_ne in Hget' by lia.
      rewrite Hget in Hget'. injection Hget' as <-. reflexivity.
Qed.

(** ** The text attribute *)

Lemma store_chars_length (t : list Z) (i : nat) (p : list Z) :
  length (store_chars t i p) = length t.
Proof.
  revert t i. induction p as [|c p IH]; intros t i; simpl.
  - reflexivity.
  - rewrite IH. apply length_insert.
Qed.

Lemma printable_prefix_length (buf : list Z) :
  (length (printable_prefix buf) <= length buf)%nat.
Proof.
  induction buf as [|c buf IH]; simpl; [lia|].
  destruct (isprint c); simpl; lia.
Qed.

(** The copy loop stores the printable run of the first [count] bytes and
    stops at its end; none of its stores leaves the text array as long as
    [count] is at most the array size. *)
Lemma copy_printable_run (buf : list Z) (i count : Z) (s : tm1628) (tr : list event) :
  0 <= i <= count -> count <= Z.of_nat (length (text s)) ->
  count - i <= Z.of_nat (length buf) ->
  let p := printable_prefix (take (Z.to_nat (count - i)) buf) in
  copy_printable buf i count {| ctrl := s; trace := tr |} =
  Ret (i + Z.of_nat (length p))
      {| ctrl := set_text s (store_chars (text s) (Z.to_nat i) p); trace := tr |}.
Proof.
  revert i s. induction buf as [|c buf IH]; intros i s Hi Hcount Hbuf p.
  - simpl in Hbuf. assert (i = count) as -> by lia.
    subst p. rewrite Z.sub_diag. simpl. rewrite Z.ltb_irrefl.
    rewrite Z.add_0_r. destruct s. reflexivity.
  - simpl. destruct (Z.ltb_spec i count) as [Hlt|Hge].
    + subst p. replace (Z.to_nat (count - i)) with (S (Z.to_nat (count - (i + 1)))) by lia.
      cbn [take printable_prefix].
      destruct (isprint c).
      * unfold mbind at 1 2, M_bind, get_ctrl. cbn [ctrl trace].
        rewrite arr_set_in_range by lia. cbn [checked mret M_ret].
        unfold mbind, M_bind, put_ctrl. cbn [ctrl trace].
        rewrite IH; cbn [text set_text]; rewrite ?length_insert; simpl in Hbuf; try lia.
        cbn [length store_chars].
        replace (Z.to_nat (i + 1)) with (S (Z.to_nat i)) by lia.
        f_equal. lia.
      * cbn [length store_chars]. rewrite Z.add_0_r. destruct s. reflexivity.
    + assert (i = count) as -> by lia. subst p.
      rewrite Z.sub_diag. simpl. rewrite Z.add_0_r. destruct s. reflexivity.
Qed.

Lemma strlen_insert_nul (t : list Z) (k : nat) :
  (k < length t)%nat ->
  exists n, strlen (<[k := 0]> t) = Some n /\ 0 <= n <= Z.of_nat k.
Proof.
  revert k. induction t as [|c t IH]; intros k Hk; simpl in Hk; [lia|].
  destruct k as [|k]; simpl.
  - exists 0. split; [reflexivity | lia].
  - destruct (c =? 0).
    + exists 0. split; [reflexivity | lia].
    + destruct (IH k) as (n & Hn & Hr); [lia|].
      rewrite Hn. exists (Z.succ n). split; [reflexivity | lia].
Qed.

Lemma strlen_nonneg (t : list Z) (n : Z) : strlen t = Some n -> 0 <= n.
Proof.
  revert n. induction t as [|c t IH]; intros n; simpl; [discriminate|].
  destruct (c =? 0).
  - intros [= <-]. lia.
  - destruct (strlen t) as [m|]; [|discriminate].
    intros [= <-]. specialize (IH m eq_refl). lia.
Qed.

(** An accepted write whose printable run leaves room for the terminator:
    the run is stored, terminated, and rendered. *)
Lemma display_text_store_run (w : world) (buf : list Z) (count : Z) :
  configured (ctrl w) = true ->
  0 <= count <= grid_size (ctrl w) + 1 -> count <= Z.of_nat (length buf) ->
  let s := ctrl w in
  let p := printable_prefix (take (Z.to_nat count) buf) in
  (length p < 8)%nat ->
  let t := <[length p := 0]> (store_chars (text s) 0 p) in
  exists n, strlen t = Some n /\ 0 <= n <= Z.of_nat (length p) /\
    let s' := set_text s t in
    let d := render_stores s' n (grid_size s) in
    let tr := trace w ++ write_data_events d 0 (grid_size s) in
    display_text_store buf count w =
    Ret (if status tr <? 0 then status tr else count)
        {| ctrl := set_data s' d; trace := tr |}.
Proof.
  destruct w as [s tr0]. cbn [ctrl trace]. intros Hc Hcount Hbuf.
  set (p := printable_prefix (take (Z.to_nat count) buf)). intros Hp.
  set (t := <[length p := 0]> (store_chars (text s) 0 p)).
  destruct (configured_inv _ Hc) as (_ & Ht & _ & _ & Hg & _).
  unfold MAX_GRID_SIZE in Hg.
  destruct (strlen_insert_nul (store_chars (text s) 0 p) (length p)) as (n & Hn & Hr).
  { rewrite store_chars_length. lia. }
  exists n. split; [exact Hn|]. split; [exact Hr|].
  set (s' := set_text s t). set (d := render_stores s' n (grid_size s)).
  set (tr := tr0 ++ write_data_events d 0 (grid_size s)).
  unfold display_text_store, mbind at 1, M_bind, get_ctrl. cbn [ctrl trace].
  destruct (Z.gtb_spec count (grid_size s + 1)) as [|_]; [lia|].
  unfold mbind at 1, M_bind.
  rewrite copy_printable_run by (rewrite ?Z.sub_0_r; lia).
  rewrite Z.sub_0_r, Z.add_0_l. fold p. change (Z.to_nat 0) with 0%nat.
  unfold mbind at 1 2 3, M_bind, get_ctrl. cbn [ctrl trace set_text text].
  rewrite arr_set_in_range by (rewrite store_chars_length; lia).
  rewrite Nat2Z.id. cbn [checked mret M_ret put_ctrl ctrl trace].
  fold t. unfold mbind, M_bind.
  assert (configured s' = true) as Hc'.
  { apply configured_set_text; [exact Hc|].
    subst t. rewrite length_insert, store_chars_length. exact Ht. }
  change (set_text (set_text s (store_chars (text s) 0 p)) t) with s'.
  rewrite (show_text_run {| ctrl := s'; trace := tr0 |} n Hc' Hn).
  cbn [ctrl trace]. change (grid_size s') with (grid_size s). fold d. fold tr.
  destruct (status tr <? 0); reflexivity.
Qed.

(** A write longer than [grid_size + 1] bytes is refused before anything is
    stored. *)
Lemma display_text_store_too_long (w : world) (buf : list Z) (count : Z) :
  grid_size (ctrl w) + 1 < count ->
  display_text_store buf count w = Ret (- E2BIG) w.
Proof.
  intros H. unfold display_text_store, mbind, M_bind, get_ctrl.
  destruct (Z.gtb_spec count (grid_size (ctrl w) + 1)); [reflexivity | lia].
Qed.

(** Below the maximal grid size every accepted write stays inside the text
    array. *)
Lemma display_text_store_safe_below_max (w : world) (buf : list Z) (count : Z) :
  configured (ctrl w) = true -> grid_size (ctrl w) < MAX_GRID_SIZE ->
  0 <= count <= grid_size (ctrl w) + 1 -> count <= Z.of_nat (length buf) ->
  exists r w', display_text_store buf count w = Ret r w' /\
               configured (ctrl w') = true.
Proof.
  intros Hc Hg Hcount Hbuf. unfold MAX_GRID_SIZE in Hg.
  pose proof (printable_prefix_length (take (Z.to_nat count) buf)) as Hp.
  rewrite length_take in Hp.
  destruct (display_text_store_run w buf count Hc Hcount Hbuf) as (n & _ & _ & Hrun);
    [lia|].
  cbv zeta in Hrun. eexists _, _. split; [exact Hrun|].
  cbn [ctrl]. destruct (configured_inv _ Hc) as (Hd & Ht & _).
  apply configured_set_data.
  - apply configured_set_text; [exact Hc|].
    rewrite length_insert, store_chars_length. exact Ht.
  - rewrite render_stores_length. exact Hd.
Qed.

(** ** Clearing the display *)

(** When every word computed is blank, every routed word ends up 0. *)
Lemma render_stores_blank (s : tm1628) (n k : Z) :
  configured s = true -> 0 <= k <= grid_size s ->
  (forall j, 0 <= j < k -> render_cell s n j = 0) ->
  forall i, 0 <= i < k ->
    arr_get (render_stores s n k) (physical_offset s i) = Some 0.
Proof.
  intros Hc [Hk0 Hk]. revert Hk. pattern k. apply natlike_ind; [| |exact Hk0].
  - intros _ _ i Hi. lia.
  - clear k Hk0. intros k Hk0 IH Hk Hblank i Hi. unfold Z.succ.
    rewrite render_stores_succ by lia.
    destruct (configured_inv _ Hc) as (Hd & _ & _ & _ & Hg & _).
    unfold MAX_GRID_SIZE in Hg.
    pose proof (physical_offset_range s k Hc) as Hpk.
    pose proof (physical_offset_range s i Hc) as Hpi.
    destruct (Z.eq_dec (physical_offset s k) (physical_offset s i)) as [Heq|Hne].
    + rewrite <- Heq, arr_get_insert_eq by (rewrite render_stores_length; lia).
      f_equal. apply Hblank. lia.
    + rewrite arr_get_insert_ne by lia.
      apply IH; [lia | intros j Hj; apply Hblank; lia |].
      destruct (Z.eq_dec i k) as [->|]; [contradiction | lia].
Qed.

(** C6 (as the driver has it): for every configured grid size and every
    in-range grid table, rendering a string of grid_size bytes and then the
    empty string leaves 0 in every buffer word some logical digit is routed
    to and leaves every other word as it was; the words [0, grid_size) are
    all cleared when the grid table reaches each of them. *)
Theorem empty_render_clears_routed_words (w : world) (buf : list Z) :
  configured (ctrl w) = true ->
  Z.of_nat (length buf) = grid_size (ctrl w) ->
  let s := ctrl w in
  let g := grid_size s in
  exists r1 w1 r2 w2,
    display_text_store buf g w = Ret r1 w1 /\
    display_text_store [] 0 w1 = Ret r2 w2 /\
    (forall i, 0 <= i < g ->
       arr_get (data (ctrl w2)) (physical_offset s i) = Some 0) /\
    (forall p, 0 <= p -> (forall i, 0 <= i < g -> physical_offset s i <> p) ->
       arr_get (data (ctrl w2)) p = arr_get (data s) p) /\
    ((forall p, 0 <= p < g -> exists i, 0 <= i < g /\ physical_offset s i = p) ->
     forall p, 0 <= p < g -> arr_get (data (ctrl w2)) p = Some 0).
Proof.
  intros Hc Hbuf s g.
  destruct (configured_inv _ Hc) as (Hd & Ht & _ & _ & Hg & _).
  unfold MAX_GRID_SIZE in Hg. fold s g in Hd, Ht, Hg.
  pose proof (printable_prefix_length (take (Z.to_nat g) buf)) as Hp.
  rewrite length_take in Hp.
  destruct (display_text_store_run w buf g Hc) as (n1 & Hn1 & _ & Hrun1);
    [subst g s; lia | subst g s; lia | lia |].
  cbv zeta in Hrun1. fold s g in Hrun1.
  set (t1 := <[length (printable_prefix (take (Z.to_nat g) buf)) := 0]>
               (store_chars (text s) 0 (printable_prefix (take (Z.to_nat g) buf)))) in *.
  set (s1 := set_text s t1) in *.
  set (d1 := render_stores s1 n1 g) in *.
  assert (configured s1 = true) as Hc1.
  { apply configured_set_text; [exact Hc|].
    subst t1. rewrite length_insert, store_chars_length. exact Ht. }
  assert (length d1 = 7%nat) as Hd1.
  { subst d1. rewrite render_stores_length. exact Hd. }
  match type of Hrun1 with _ = Ret ?r ?x => set (r1 := r) in *; set (w1 := x) in * end.
  assert (configured (ctrl w1) = true) as Hcw1.
  { subst w1. cbn [ctrl]. apply configured_set_data; assumption. }
  destruct (display_text_store_run w1 [] 0 Hcw1) as (n2 & Hn2 & Hr2 & Hrun2);
    [change (grid_size (ctrl w1)) with g; lia | simpl; lia | simpl; lia |].
  cbv zeta in Hrun2. simpl printable_prefix in Hrun2. simpl length in Hr2, Hrun2.
  assert (n2 = 0) as -> by lia.
  change (grid_size (ctrl w1)) with g in Hrun2.
  cbn [store_chars] in Hrun2.
  set (s2 := set_text (ctrl w1) (<[0%nat := 0]> (text (ctrl w1)))) in *.
  assert (configured s2 = true) as Hc2.
  { apply configured_set_text; [exact Hcw1|].
    rewrite length_insert. change (text (ctrl w1)) with t1.
    subst t1. rewrite length_insert, store_chars_length. exact Ht. }
  assert (forall i, physical_offset s2 i = physical_offset s i) as Hpo2 by reflexivity.
  assert (forall i, physical_offset s1 i = physical_offset s i) as Hpo1 by reflexivity.
  assert (forall p, 0 <= p -> (forall i, 0 <= i < g -> physical_offset s i <> p) ->
            arr_get (render_stores s2 0 g) p = arr_get (data s) p) as Hkeep.
  { intros p Hp0 Hunrouted.
    rewrite render_stores_untouched; [|exact Hc2|change (grid_size s2) with g; lia|lia|].
    - change (data s2) with d1. subst d1.
      rewrite render_stores_untouched;
        [reflexivity|exact Hc1|change (grid_size s1) with g; lia|lia|].
      intros i Hi. rewrite Hpo1. apply Hunrouted. exact Hi.
    - intros i Hi. rewrite Hpo2. apply Hunrouted. exact Hi. }
  assert (forall i, 0 <= i < g ->
            arr_get (render_stores s2 0 g) (physical_offset s i) = Some 0) as Hzero.
  { intros i Hi. rewrite <- Hpo2.
    apply render_stores_blank; [exact Hc2|change (grid_size s2) with g; lia| |exact Hi].
    intros j Hj. apply render_cell_past_text. lia. }
  eexists _, _, _, _. split; [exact Hrun1|]. split; [exact Hrun2|].
  cbn [ctrl set_data data].
  split; [exact Hzero|]. split; [exact Hkeep|].
  intros Hsurj p Hp'. destruct (Hsurj p Hp') as (i & Hi & <-).
  apply Hzero. exact Hi.
Qed.

(** ** Probe *)

Lemma add_leds_fields (s : tm1628) (ls : list tm1628_led) :
  data (foldl add_led s ls) = data s /\
  text (foldl add_led s ls) = text s /\
  segment_mapping (foldl add_led s ls) = segment_mapping s /\
  grid (foldl add_led s ls) = grid s /\
  grid_size (foldl add_led s ls) = grid_size s.
Proof.
  revert s. induction ls as [|l ls IH]; intros s; simpl.
  - repeat split.
  - destruct (IH (add_led s l)) as (H1 & H2 & H3 & H4 & H5).
    rewrite H1, H2, H3, H4, H5. repeat split.
Qed.

(** One child node registers at most one LED and issues nothing else. *)
Lemma probe_child_run (c : child_node) (w : world) :
  exists evs ls,
    probe_child c w = Ret tt {| ctrl := foldl add_led (ctrl w) ls;
                                trace := trace w ++ evs |} /\
    forallb is_led_register evs = true.
Proof.
  unfold probe_child.
  destruct (negb (reg_status c =? 0));
    [exists [], []; rewrite app_nil_r; destruct w; split; reflexivity|].
  destruct ((reg0 c =? 0) || (reg0 c >? MAX_GRID_SIZE));
    [exists [], []; rewrite app_nil_r; destruct w; split; reflexivity|].
  destruct ((reg1 c =? 0) || (reg1 c >? MAX_SEGMENT_NUM));
    [exists [], []; rewrite app_nil_r; destruct w; split; reflexivity|].
  unfold tm1628_register_led, mbind, M_bind, call. cbn [ctrl trace].
  destruct (status (trace w ++ [EvLedRegister (reg0 c) (reg1 c)]) =? 0).
  - exists [EvLedRegister (reg0 c) (reg1 c)],
           [{| led_grid := reg0 c; led_seg := reg1 c |}].
    split; reflexivity.
  - exists [EvLedRegister (reg0 c) (reg1 c)], [].
    split; reflexivity.
Qed.

Lemma probe_children_cons (c : child_node) (cs : list child_node) (w : world) :
  probe_children (c :: cs) w =
  match probe_child c w with
  | Ret _ w' => probe_children cs w'
  | Fault w' => Fault w'
  end.
Proof. reflexivity. Qed.

Lemma probe_children_run (cs : list child_node) (w : world) :
  exists evs ls,
    probe_children cs w = Ret tt {| ctrl := foldl add_led (ctrl w) ls;
                                    trace := trace w ++ evs |} /\
    forallb is_led_register evs = true.
Proof.
  revert w. induction cs as [|c cs IH]; intros w.
  - exists [], []. rewrite app_nil_r. destruct w. split; reflexivity.
  - destruct (probe_child_run c w) as (evs1 & ls1 & Hrun1 & Hev1).
    rewrite probe_children_cons, Hrun1.
    destruct (IH {| ctrl := foldl add_led (ctrl w) ls1; trace := trace w ++ evs1 |})
      as (evs2 & ls2 & Hrun2 & Hev2).
    exists (evs1 ++ evs2), (ls1 ++ ls2).
    rewrite Hrun2. cbn [ctrl trace].
    rewrite foldl_app, app_assoc, forallb_app, Hev1, Hev2. split; reflexivity.
Qed.

Lemma fill_length (arr vals : list Z) (n : Z) :
  n <= Z.of_nat (length arr) -> length (fill arr vals n) = length arr.
Proof.
  intros H. unfold fill. rewrite length_app, length_drop, length_take. lia.
Qed.

Lemma fill_get (arr vals : list Z) (n i : Z) :
  0 <= i < n -> i < Z.of_nat (length vals) ->
  arr_get (fill arr vals n) i = vals !! Z.to_nat i.
Proof.
  intros Hi Hlen. unfold arr_get, fill.
  destruct (Z.leb_spec 0 i); [|lia].
  rewrite lookup_app_l by (rewrite length_take; lia).
  apply lookup_take_lt. lia.
Qed.

Lemma table_ok_intro (arr : list Z) (n hi : Z) :
  (forall i, 0 <= i < n -> exists v, arr_get arr i = Some v /\ 1 <= v <= hi) ->
  table_ok arr n hi = true.
Proof.
  intros H. unfold table_ok. apply forallb_forall. intros i Hin.
  apply list_elem_of_In, elem_of_seqZ in Hin.
  destruct (H i) as (v & -> & Hv); [lia|].
  apply negb_true_iff, orb_false_iff. split.
  - apply Z.ltb_ge. lia.
  - destruct (Z.gtb_spec v hi); [lia | reflexivity].
Qed.

Lemma table_ok_bad_entry (arr : list Z) (n hi i v : Z) :
  0 <= i < n -> arr_get arr i = Some v -> ~ 1 <= v <= hi ->
  table_ok arr n hi = false.
Proof.
  intros Hi Hget Hbad. destruct (table_ok arr n hi) eqn:E; [|reflexivity].
  destruct (table_ok_get _ _ _ _ E Hi) as (v' & Hget' & Hv').
  rewrite Hget in Hget'. injection Hget' as <-. contradiction.
Qed.

Lemma foldl_add_led_kzalloc (ls : list tm1628_led) :
  foldl add_led kzalloc_tm1628 ls =
  {| data := replicate 7 0; text := replicate 8 0;
     segment_mapping := replicate 7 0; grid := replicate 7 0;
     grid_size := 0; leds := ls |}.
Proof.
  change kzalloc_tm1628 with
    {| data := replicate 7 0; text := replicate 8 0;
       segment_mapping := replicate 7 0; grid := replicate 7 0;
       grid_size := 0; leds := [] |}.
  rewrite <- (app_nil_l ls) at 2. generalize (@nil tm1628_led) as acc.
  induction ls as [|l ls IH]; intros acc; simpl.
  - rewrite app_nil_r. reflexivity.
  - unfold add_led at 2. simpl. rewrite IH, <- app_assoc. reflexivity.
Qed.

Ltac probe_simpl :=
  cbn [orb andb negb ctrl trace set_grid_size set_grid set_segment_mapping
       grid grid_size data text segment_mapping leds].

(** The part of probe after the child nodes: table validation, then the
    registration of the text attribute. *)
Lemma probe_tables_run (cfg : config) (ls : list tm1628_led) (tr : list event)
    (k : M Z) :
  k = (let ret := grid_count cfg in
      if (ret <? 1) || (ret >? MAX_GRID_SIZE) then mret (- EINVAL)
      else
        s ← get_ctrl;
        put_ctrl (set_grid_size s ret);;
        let ret := grid_status cfg in
        if ret <? 0 then mret ret
        else
          s ← get_ctrl;
          put_ctrl (set_grid s (fill (grid s) (grid_bytes cfg) (grid_size s)));;
          s ← get_ctrl;
          if negb (table_ok (grid s) (grid_size s) (grid_size s)) then mret (- EINVAL)
          else
            let ret := segmap_status cfg in
            if ret <? 0 then mret ret
            else
              put_ctrl (set_segment_mapping s (fill (segment_mapping s) (segmap_bytes cfg) 7));;
              s ← get_ctrl;
              if negb (table_ok (segment_mapping s) 7 MAX_SEGMENT_NUM) then mret (- EINVAL)
              else
                ret ← call EvCreateFile;
                if negb (ret =? 0) then mret ret else mret 0) ->
  let w := {| ctrl := foldl add_led kzalloc_tm1628 ls; trace := tr |} in
  (tables_valid cfg = false ->
   exists r s', r < 0 /\ k w = Ret r {| ctrl := s'; trace := tr |}) /\
  (tables_valid cfg = true ->
   k w = Ret (status (tr ++ [EvCreateFile]))
             {| ctrl := probed_state cfg ls; trace := tr ++ [EvCreateFile] |}).
Proof.
  intros -> w. subst w. rewrite foldl_add_led_kzalloc.
  unfold tables_valid, grid_table, segment_table, probed_state. cbv zeta.
  unfold mbind, M_bind, get_ctrl, put_ctrl, call, mret, M_ret.
  probe_simpl.
  assert (- EINVAL < 0) as Hneg by (unfold EINVAL; lia).
  destruct (Z.ltb_spec (grid_count cfg) 1) as [Hlo|Hlo];
    destruct (Z.leb_spec 1 (grid_count cfg)) as [Hlo'|Hlo']; try lia; probe_simpl;
    [split; [intros _; eexists _, _; split; [exact Hneg | reflexivity] | discriminate]|].
  destruct (Z.gtb_spec (grid_count cfg) MAX_GRID_SIZE) as [Hhi|Hhi];
    destruct (Z.leb_spec (grid_count cfg) MAX_GRID_SIZE) as [Hhi'|Hhi']; try lia;
    probe_simpl;
    [split; [intros _; eexists _, _; split; [exact Hneg | reflexivity] | discriminate]|].
  destruct (Z.ltb_spec (grid_status cfg) 0) as [Hgs|Hgs];
    destruct (Z.leb_spec 0 (grid_status cfg)) as [Hgs'|Hgs']; try lia; probe_simpl;
    [split; [intros _; eexists _, _; split; [exact Hgs | reflexivity] | discriminate]|].
  destruct (table_ok (fill (replicate 7 0) (grid_bytes cfg) (grid_count cfg))
              (grid_count cfg) (grid_count cfg)); probe_simpl;
    [|split; [intros _; eexists _, _; split; [exact Hneg | reflexivity] | discriminate]].
  destruct (Z.ltb_spec (segmap_status cfg) 0) as [Hss|Hss];
    destruct (Z.leb_spec 0 (segmap_status cfg)) as [Hss'|Hss']; try lia; probe_simpl;
    [split; [intros _; eexists _, _; split; [exact Hss | reflexivity] | discriminate]|].
  destruct (table_ok (fill (replicate 7 0) (segmap_bytes cfg) 7) 7 MAX_SEGMENT_NUM);
    probe_simpl;
    [|split; [intros _; eexists _, _; split; [exact Hneg | reflexivity] | discriminate]].
  split; [discriminate|]. intros _.
  destruct (status (tr ++ [EvCreateFile]) =? 0) eqn:E; probe_simpl.
  - apply Z.eqb_eq in E. rewrite E. reflexivity.
  - reflexivity.
Qed.

(** Probe as a whole, once the structure is allocated: the settle delay and
    the screen clear; if the clear succeeded, the mode and display-on
    commands, the LED registrations, the table validation and, if that
    passed, the registration of the text attribute. *)
Lemma probe_run (cfg : config) (w : world) :
  alloc_ok cfg = true ->
  let tr2 := trace w ++ probe_clear_events in
  (status tr2 <> 0 ->
   tm1628_spi_probe cfg w = Ret (status tr2) {| ctrl := kzalloc_tm1628; trace := tr2 |}) /\
  (status tr2 = 0 ->
   exists evs ls,
     forallb is_led_register evs = true /\
     (leds_class_reachable = false -> evs = []) /\
     let tr4 := tr2 ++ [mode_cmd; display_on_cmd] ++ evs in
     (tables_valid cfg = false ->
      exists r s', r < 0 /\
        tm1628_spi_probe cfg w = Ret r {| ctrl := s'; trace := tr4 |}) /\
     (tables_valid cfg = true ->
      tm1628_spi_probe cfg w =
      Ret (status (tr4 ++ [EvCreateFile]))
          {| ctrl := probed_state cfg ls; trace := tr4 ++ [EvCreateFile] |})).
Proof.
  intros Halloc tr2.
  assert (tm1628_write_data 0 MAX_GRID_SIZE
            {| ctrl := kzalloc_tm1628; trace := trace w ++ [EvMsleep 200] |} =
          Ret (status tr2) {| ctrl := kzalloc_tm1628; trace := tr2 |}) as Hclear.
  { rewrite write_data_in_range; unfold MAX_GRID_SIZE; cbn [ctrl trace]; try lia;
      [|reflexivity].
    subst tr2. unfold probe_clear_events, MAX_GRID_SIZE.
    rewrite <- app_assoc. reflexivity. }
  remember (tm1628_spi_probe cfg w) as res eqn:Hres.
  unfold tm1628_spi_probe in Hres. rewrite Halloc in Hres. cbn [negb] in Hres.
  unfold mbind at 1 2 3, M_bind, put_ctrl, emit in Hres. cbn [ctrl trace] in Hres.
  rewrite Hclear in Hres.
  destruct (Z.eqb_spec (status tr2) 0) as [Hz|Hnz]; cbn [negb] in Hres.
  2:{ split; [intros _; exact Hres | intros Hz; contradiction]. }
  split; [intros Hnz; contradiction | intros _].
  unfold mbind at 1 2, M_bind in Hres.
  unfold tm1628_set_display_mode at 1, tm1628_set_display_ctrl at 1,
    spi_write, spi_sync_transfer, call in Hres.
  cbn [ctrl trace] in Hres.
  unfold mbind at 1, M_bind in Hres.
  assert ((tr2 ++ [EvSpi [[u8 (Z.lor TM1628_CMD_DISPLAY_MODE
                                 TM1628_DISPLAY_MODE_6_12)]]]) ++
          [EvSpi [[u8 (Z.lor (Z.lor TM1628_CMD_DISPLAY_CTRL TM1628_BRIGHTNESS_MAX)
                         TM1628_DISPLAY_CTRL_DISPLAY_ON)]]] =
          tr2 ++ [mode_cmd; display_on_cmd]) as Htr3.
  { rewrite <- app_assoc. reflexivity. }
  rewrite Htr3 in Hres.
  destruct leds_class_reachable.
  - destruct (probe_children_run (children cfg)
                {| ctrl := kzalloc_tm1628; trace := tr2 ++ [mode_cmd; display_on_cmd] |})
      as (evs & ls & Hrun & Hev).
    rewrite Hrun in Hres. cbn [ctrl trace] in *.
    exists evs, ls. split; [exact Hev|]. split; [discriminate|].
    cbv zeta. rewrite app_assoc. subst res.
    eapply probe_tables_run. reflexivity.
  - exists [], []. split; [reflexivity|]. split; [reflexivity|].
    cbv zeta. rewrite app_assoc, app_nil_r. subst res.
    eapply (probe_tables_run cfg []). reflexivity.
Qed.

Lemma led_events_no_create_file (evs : list event) :
  forallb is_led_register evs = true -> ~ In EvCreateFile evs.
Proof.
  intros H Hin. rewrite forallb_forall in H. specialize (H _ Hin). discriminate.
Qed.

Lemma probe_clear_events_no_create_file : ~ In EvCreateFile probe_clear_events.
Proof.
  unfold probe_clear_events, write_data_events, address_cmd, data_burst. simpl.
  intros [H|[H|[H|[]]]]; discriminate.
Qed.

Lemma probed_state_configured (cfg : config) (ls : list tm1628_led) :
  tables_valid cfg = true -> configured (probed_state cfg ls) = true.
Proof.
  unfold tables_valid. rewrite !andb_true_iff, !Z.leb_le.
  intros [[[[[Hlo Hhi] _] Hg] _] Hs].
  unfold configured, probed_state, grid_table, segment_table in *.
  cbn [data text segment_mapping grid grid_size].
  unfold MAX_GRID_SIZE in Hhi.
  rewrite !fill_length by (rewrite length_replicate; lia).
  rewrite !length_replicate, Hg, Hs.
  destruct (Z.leb_spec 1 (grid_count cfg)); [|lia].
  destruct (Z.leb_spec (grid_count cfg) MAX_GRID_SIZE); [|unfold MAX_GRID_SIZE in *; lia].
  reflexivity.
Qed.

(** C7: probe fails with an error, without registering the text attribute,
    whenever the display length is outside [1, MAX_GRID_SIZE], whenever an
    entry of the grid table is outside [1, grid_size] or whenever an entry of
    the segment table is outside [1, MAX_SEGMENT_NUM]; when the length and
    all entries are in range (and the steps before validation succeeded),
    validation passes: probe goes on to register the text attribute and
    returns the status of that registration. *)
Theorem probe_validates_tables (cfg : config) (w : world) :
  exists r w' evs,
    tm1628_spi_probe cfg w = Ret r w' /\
    trace w' = trace w ++ evs /\
    ((~ 1 <= grid_count cfg <= MAX_GRID_SIZE \/
      (exists i v, 0 <= i < grid_count cfg /\
         arr_get (grid_table cfg) i = Some v /\ ~ 1 <= v <= grid_count cfg) \/
      (exists j v, 0 <= j < 7 /\
         arr_get (segment_table cfg) j = Some v /\ ~ 1 <= v <= MAX_SEGMENT_NUM)) ->
     r <> 0 /\ ~ In EvCreateFile evs) /\
    (alloc_ok cfg = true -> status (trace w ++ probe_clear_events) = 0 ->
     1 <= grid_count cfg <= MAX_GRID_SIZE ->
     0 <= grid_status cfg -> 0 <= segmap_status cfg ->
     (forall i, 0 <= i < grid_count cfg ->
        exists v, arr_get (grid_table cfg) i = Some v /\ 1 <= v <= grid_count cfg) ->
     (forall j, 0 <= j < 7 ->
        exists v, arr_get (segment_table cfg) j = Some v /\ 1 <= v <= MAX_SEGMENT_NUM) ->
     last evs = Some EvCreateFile /\ r = status (trace w') /\
     configured (ctrl w') = true /\
     grid (ctrl w') = grid_table cfg /\
     segment_mapping (ctrl w') = segment_table cfg /\
     grid_size (ctrl w') = grid_count cfg).
Proof.
  assert ((~ 1 <= grid_count cfg <= MAX_GRID_SIZE \/
      (exists i v, 0 <= i < grid_count cfg /\
         arr_get (grid_table cfg) i = Some v /\ ~ 1 <= v <= grid_count cfg) \/
      (exists j v, 0 <= j < 7 /\
         arr_get (segment_table cfg) j = Some v /\ ~ 1 <= v <= MAX_SEGMENT_NUM)) ->
     tables_valid cfg = false) as Hinvalid.
  { intros Hbad. unfold tables_valid.
    destruct Hbad as [Hc | [(i & v & Hi & Hget & Hv) | (j & v & Hj & Hget & Hv)]].
    - destruct (Z.leb_spec 1 (grid_count cfg)); [|reflexivity].
      destruct (Z.leb_spec (grid_count cfg) MAX_GRID_SIZE); [lia | reflexivity].
    - rewrite (table_ok_bad_entry _ _ _ _ _ Hi Hget Hv).
      rewrite !andb_false_r. reflexivity.
    - rewrite (table_ok_bad_entry _ _ _ _ _ Hj Hget Hv).
      apply andb_false_r. }
  assert (alloc_ok cfg = true ->
     1 <= grid_count cfg <= MAX_GRID_SIZE ->
     0 <= grid_status cfg -> 0 <= segmap_status cfg ->
     (forall i, 0 <= i < grid_count cfg ->
        exists v, arr_get (grid_table cfg) i = Some v /\ 1 <= v <= grid_count cfg) ->
     (forall j, 0 <= j < 7 ->
        exists v, arr_get (segment_table cfg) j = Some v /\ 1 <= v <= MAX_SEGMENT_NUM) ->
     tables_valid cfg = true) as Hvalid.
  { intros _ Hc Hgs Hss Hg Hs. unfold tables_valid.
    rewrite (table_ok_intro _ _ _ Hg), (table_ok_intro _ _ _ Hs).
    rewrite !andb_true_iff, !Z.leb_le. repeat split; lia. }
  destruct (alloc_ok cfg) eqn:Halloc.
  2:{ exists (- ENOMEM), w, []. unfold tm1628_spi_probe. rewrite Halloc.
      split; [reflexivity|]. split; [rewrite app_nil_r; reflexivity|].
      split; [|discriminate].
      intros _. split; [unfold ENOMEM; lia | intros []]. }
  destruct (probe_run cfg w Halloc) as [Hfail Hok]. cbv zeta in Hfail, Hok.
  destruct (Z.eq_dec (status (trace w ++ probe_clear_events)) 0) as [Hz|Hnz].
  2:{ eexists _, _, _. split; [exact (Hfail Hnz)|]. split; [reflexivity|].
      split; [|intros _ Hz; contradiction].
      intros _. split; [exact Hnz | exact probe_clear_events_no_create_file]. }
  destruct (Hok Hz) as (evs & ls & Hev & _ & Hbad & Hgood).
  destruct (tables_valid cfg) eqn:Htv.
  - eexists _, _, _. split; [exact (Hgood eq_refl)|].
    split; [cbn [trace]; rewrite <- !app_assoc; reflexivity|].
    split; [intros Hb; discriminate (Hinvalid Hb)|].
    intros _ _ _ _ _ _ _. cbn [ctrl trace].
    split; [rewrite !app_assoc; apply last_snoc|].
    split; [reflexivity|].
    split; [apply probed_state_configured; exact Htv|].
    repeat split.
  - destruct (Hbad eq_refl) as (r & s' & Hr & Hrun).
    eexists _, _, _. split; [exact Hrun|].
    split; [cbn [trace]; rewrite <- !app_assoc; reflexivity|].
    split.
    + intros _. split; [lia|].
      intros Hin. apply in_app_or in Hin. destruct Hin as [Hin|Hin];
        [exact (probe_clear_events_no_create_file Hin)|].
      destruct Hin as [Hin|[Hin|Hin]]; try discriminate.
      exact (led_events_no_create_file _ Hev Hin).
    + intros Ha _ Hc Hgs Hss Hg Hs.
      discriminate (Hvalid Ha Hc Hgs Hss Hg Hs).
Qed.

(** * Further properties of the driver *)

(** ** Protocol encoder *)

Lemma mem_bytes16_length (v : Z) : length (mem_bytes16 v) = 2%nat.
Proof. unfold mem_bytes16. destruct big_endian; reflexivity. Qed.

Lemma concat_mem_bytes16_length (l : list Z) :
  length (concat (map mem_bytes16 l)) = (2 * length l)%nat.
Proof.
  induction l as [|v l IH]; [reflexivity|].
  cbn [map concat]. rewrite length_app, mem_bytes16_length, IH. simpl. lia.
Qed.

Lemma address_byte (offset : Z) :
  0 <= offset <= MAX_GRID_SIZE ->
  u8 (Z.lor TM1628_CMD_SET_ADDRESS (u8 offset * 2)) = 192 + 2 * offset.
Proof.
  unfold MAX_GRID_SIZE. intros H.
  assert (offset = 0 \/ offset = 1 \/ offset = 2 \/ offset = 3 \/ offset = 4 \/
          offset = 5 \/ offset = 6 \/ offset = 7) as Ho by lia.
  repeat (destruct Ho as [->|Ho]; [reflexivity|]). subst. reflexivity.
Qed.

(** X1: when offset + length exceeds the capacity without wrapping around in
    unsigned int, write_data returns -EINVAL and leaves the controller state
    and the bus untouched. *)
Theorem write_data_rejects_out_of_range (w : world) (offset len : Z) :
  0 <= offset -> 0 <= len -> offset + len < 2 ^ 32 ->
  MAX_GRID_SIZE < offset + len ->
  tm1628_write_data offset len w = Ret (- EINVAL) w.
Proof. apply write_data_rejected. Qed.

(** X2: for arguments within the capacity, write_data sends the address
    command byte 0xC0 + 2 * offset, then one message made of the data command
    byte 0x40 and a payload of exactly 2 * len bytes. *)
Theorem write_data_wire_format (w : world) (offset len : Z) :
  0 <= offset -> 0 <= len -> offset + len <= MAX_GRID_SIZE ->
  length (data (ctrl w)) = 7%nat ->
  exists r w' payload,
    tm1628_write_data offset len w = Ret r w' /\
    trace w' = trace w ++ [EvSpi [[192 + 2 * offset]]; EvSpi [[64]; payload]] /\
    Z.of_nat (length payload) = 2 * len.
Proof.
  intros Ho Hl Hs Hd.
  rewrite (write_data_in_range w offset len Ho Hl Hs Hd).
  eexists _, _, _. split; [reflexivity|]. cbn [trace].
  unfold write_data_events, address_cmd, data_burst.
  rewrite address_byte by lia. split; [reflexivity|].
  rewrite concat_mem_bytes16_length, length_take, length_drop.
  unfold MAX_GRID_SIZE in Hs. lia.
Qed.

(** X3: a 16-bit value converted with cpu_to_le16 and stored in the buffer
    goes out on the wire low byte first, on a little-endian and on a
    big-endian host alike. *)
Theorem wire_bytes_are_low_byte_first (x : Z) :
  0 <= x < 2 ^ 16 ->
  mem_bytes16 (cpu_to_le16 x) = [Z.land x 255; Z.shiftr x 8].
Proof. apply mem_bytes16_cpu_to_le16. Qed.

(** X4: tm1628_led_set_brightness replaces exactly the word of the LED's
    grid, leaves the rest of the controller state alone, sends that single
    word on the bus, and returns the status of the transfer; the buffer is
    updated also when the transfer fails. *)
Theorem led_set_updates_one_word (w : world) (led : tm1628_led) (brightness : Z) :
  length (data (ctrl w)) = 7%nat -> 1 <= led_grid led <= MAX_GRID_SIZE ->
  exists old r w',
    arr_get (data (ctrl w)) (led_grid led - 1) = Some old /\
    tm1628_led_set_brightness led brightness w = Ret r w' /\
    ctrl w' = set_data (ctrl w)
                (<[Z.to_nat (led_grid led - 1) := led_new_word led brightness old]>
                   (data (ctrl w))) /\
    (forall p, 0 <= p -> p <> led_grid led - 1 ->
       arr_get (data (ctrl w')) p = arr_get (data (ctrl w)) p) /\
    trace w' = trace w ++
      [address_cmd (led_grid led - 1);
       EvSpi [[64]; mem_bytes16 (led_new_word led brightness old)]] /\
    r = status (trace w').
Proof.
  intros Hd Hg. destruct (led_set_run w led brightness Hd Hg) as (old & Hold & Hrun).
  cbv zeta in Hrun. unfold MAX_GRID_SIZE in Hg.
  eexists old, _, _. split; [exact Hold|]. split; [exact Hrun|].
  cbn [ctrl trace set_data data]. split; [reflexivity|]. split; [|split].
  - intros p Hp Hne. apply arr_get_insert_ne; lia.
  - unfold write_data_events, data_burst.
    rewrite drop_insert_ge by lia.
    replace (Z.to_nat (led_grid led - 1) - Z.to_nat (led_grid led - 1))%nat
      with 0%nat by lia.
    destruct (drop (Z.to_nat (led_grid led - 1)) (data (ctrl w))) as [|x l] eqn:E.
    + apply (f_equal length) in E. rewrite length_drop in E. simpl in E. lia.
    + change (Z.to_nat 1) with 1%nat. cbn [insert list_insert take map concat].
      rewrite app_nil_r. reflexivity.
  - reflexivity.
Qed.

(** ** LED words *)

Lemma u16_range (x : Z) : word16 (u16 x).
Proof. unfold word16, u16. apply Z.mod_pos_bound. lia. Qed.

Lemma word16_bits_eq (x y : Z) :
  word16 x -> word16 y ->
  (forall m, 0 <= m < 16 -> Z.testbit x m = Z.testbit y m) -> x = y.
Proof.
  unfold word16. intros Hx Hy Hbits. apply Z.bits_inj'. intros k Hk.
  destruct (Z.ltb_spec k 16).
  - apply Hbits. lia.
  - rewrite !testbit_u16_high by lia. reflexivity.
Qed.

Lemma led_new_word_range (led : tm1628_led) (brightness old : Z) :
  word16 (led_new_word led brightness old).
Proof. unfold led_new_word. destruct (brightness =? LED_OFF); apply u16_range. Qed.

Lemma led_new_word_twice (led : tm1628_led) (brightness old : Z) :
  1 <= led_seg led <= MAX_SEGMENT_NUM ->
  led_new_word led brightness (led_new_word led brightness old) =
  led_new_word led brightness old.
Proof.
  intros Hs. apply word16_bits_eq; try apply led_new_word_range.
  intros m Hm. rewrite !led_new_word_testbit by assumption.
  destruct (m =? le_bit_index (led_seg led - 1)); reflexivity.
Qed.

Lemma led_new_word_off_after_on (led : tm1628_led) (brightness old : Z) :
  1 <= led_seg led <= MAX_SEGMENT_NUM -> word16 old ->
  Z.testbit old (le_bit_index (led_seg led - 1)) = false ->
  led_new_word led LED_OFF (led_new_word led brightness old) = old.
Proof.
  intros Hs Hold Hbit. apply word16_bits_eq; [apply led_new_word_range | exact Hold |].
  intros m Hm. rewrite !led_new_word_testbit by assumption.
  destruct (Z.eqb_spec m (le_bit_index (led_seg led - 1))) as [->|_].
  - rewrite Hbit. reflexivity.
  - reflexivity.
Qed.

Lemma set_data_same (s : tm1628) : set_data s (data s) = s.
Proof. destruct s. reflexivity. Qed.

Lemma set_data_twice (s : tm1628) (d d' : list Z) :
  set_data (set_data s d) d' = set_data s d'.
Proof. reflexivity. Qed.

(** Two settings of the same LED in a row. *)
Lemma led_set_twice_run (w : world) (led : tm1628_led) (b1 b2 : Z) :
  length (data (ctrl w)) = 7%nat -> 1 <= led_grid led <= MAX_GRID_SIZE ->
  exists old r1 w1 r2 w2,
    arr_get (data (ctrl w)) (led_grid led - 1) = Some old /\
    tm1628_led_set_brightness led b1 w = Ret r1 w1 /\
    tm1628_led_set_brightness led b2 w1 = Ret r2 w2 /\
    ctrl w1 = set_data (ctrl w)
                (<[Z.to_nat (led_grid led - 1) := led_new_word led b1 old]>
                   (data (ctrl w))) /\
    ctrl w2 = set_data (ctrl w)
                (<[Z.to_nat (led_grid led - 1) :=
                     led_new_word led b2 (led_new_word led b1 old)]>
                   (data (ctrl w))).
Proof.
  intros Hd Hg. assert (Hg' := Hg). unfold MAX_GRID_SIZE in Hg'.
  destruct (led_set_run w led b1 Hd Hg) as (old & Hold & Hrun1).
  cbv zeta in Hrun1.
  match type of Hrun1 with _ = Ret ?r ?x => set (r1 := r) in *; set (w1 := x) in * end.
  assert (length (data (ctrl w1)) = 7%nat) as Hd1.
  { subst w1. cbn [ctrl set_data data]. rewrite length_insert. exact Hd. }
  destruct (led_set_run w1 led b2 Hd1 Hg) as (old1 & Hold1 & Hrun2).
  cbv zeta in Hrun2.
  assert (old1 = led_new_word led b1 old) as ->.
  { subst w1. cbn [ctrl set_data data] in Hold1.
    rewrite arr_get_insert_eq in Hold1 by lia. congruence. }
  eexists old, r1, w1, _, _. split; [exact Hold|]. split; [exact Hrun1|].
  split; [exact Hrun2|]. split; [reflexivity|].
  subst w1. cbn [ctrl set_data data]. rewrite list_insert_insert_eq. reflexivity.
Qed.

(** X5: switching an LED that reads off on and then off again brings the
    buffer back to what it was, provided its word held a 16-bit value. *)
Theorem led_on_then_off_restores_buffer (w : world) (led : tm1628_led)
    (brightness old : Z) :
  length (data (ctrl w)) = 7%nat ->
  1 <= led_grid led <= MAX_GRID_SIZE -> 1 <= led_seg led <= MAX_SEGMENT_NUM ->
  arr_get (data (ctrl w)) (led_grid led - 1) = Some old -> word16 old ->
  tm1628_led_get_brightness led w = Ret LED_OFF w ->
  exists r1 w1 r2 w2,
    tm1628_led_set_brightness led brightness w = Ret r1 w1 /\
    tm1628_led_set_brightness led LED_OFF w1 = Ret r2 w2 /\
    ctrl w2 = ctrl w.
Proof.
  intros Hd Hg Hs Hold Hrange Hoff.
  destruct (led_set_twice_run w led brightness LED_OFF Hd Hg)
    as (old' & r1 & w1 & r2 & w2 & Hold' & Hrun1 & Hrun2 & _ & Hctrl).
  rewrite Hold in Hold'. injection Hold' as <-.
  exists r1, w1, r2, w2. split; [exact Hrun1|]. split; [exact Hrun2|].
  rewrite Hctrl.
  destruct (led_get_run w led Hd Hg) as (d & Hget & Hrun).
  rewrite Hold in Hget. injection Hget as <-.
  rewrite Hrun in Hoff.
  destruct (led_mask_bit led Hs) as [Hmask Hidx].
  rewrite Hmask, land_pow2_eqb, negb_involutive in Hoff by lia.
  destruct (Z.testbit old (le_bit_index (led_seg led - 1))) eqn:Hbit;
    [discriminate|].
  rewrite led_new_word_off_after_on by assumption.
  rewrite list_insert_id; [apply set_data_same|].
  apply arr_get_Some in Hold. apply Hold.
Qed.

(** X6: setting an LED to the state it already has been set to changes
    nothing in the controller state. *)
Theorem led_set_is_idempotent (w : world) (led : tm1628_led) (brightness : Z) :
  length (data (ctrl w)) = 7%nat ->
  1 <= led_grid led <= MAX_GRID_SIZE -> 1 <= led_seg led <= MAX_SEGMENT_NUM ->
  exists r1 w1 r2 w2,
    tm1628_led_set_brightness led brightness w = Ret r1 w1 /\
    tm1628_led_set_brightness led brightness w1 = Ret r2 w2 /\
    ctrl w2 = ctrl w1.
Proof.
  intros Hd Hg Hs.
  destruct (led_set_twice_run w led brightness brightness Hd Hg)
    as (old & r1 & w1 & r2 & w2 & _ & Hrun1 & Hrun2 & Hc1 & Hc2).
  exists r1, w1, r2, w2. split; [exact Hrun1|]. split; [exact Hrun2|].
  rewrite Hc1, Hc2, led_new_word_twice by assumption. reflexivity.
Qed.

(** ** Buffer words stay 16-bit values *)

Lemma swab16_range (v : Z) : word16 v -> word16 (swab16 v).
Proof.
  unfold word16. intros Hv.
  assert (0 <= swab16 v) as Hnn.
  { unfold swab16. apply Z.lor_nonneg. split.
    - apply Z.shiftl_nonneg, Z.land_nonneg. lia.
    - apply Z.shiftr_nonneg. lia. }
  split; [exact Hnn|].
  replace (swab16 v) with (swab16 v mod 2 ^ 16); [apply Z.mod_pos_bound; lia|].
  apply Z.bits_inj'. intros k Hk.
  destruct (Z.ltb_spec k 16).
  - apply Z.mod_pow2_bits_low. lia.
  - rewrite Z.mod_pow2_bits_high by lia. symmetry. unfold swab16.
    rewrite Z.lor_spec, Z.shiftl_spec, Z.shiftr_spec, Z.land_spec by lia.
    rewrite (testbit_u16_high v (k + 8)) by (unfold word16; lia).
    change 255 with (Z.ones 8). rewrite Z.ones_spec_high by lia.
    rewrite andb_false_r. reflexivity.
Qed.

Lemma cpu_to_le16_range (x : Z) : word16 (cpu_to_le16 x).
Proof.
  unfold cpu_to_le16. destruct big_endian; [apply swab16_range|]; apply u16_range.
Qed.

Lemma render_cell_range (s : tm1628) (n i : Z) : word16 (render_cell s n i).
Proof.
  unfold render_cell. destruct (i <? n); [apply cpu_to_le16_range|].
  unfold word16. lia.
Qed.

Lemma render_stores_word16 (s : tm1628) (n k : Z) :
  Forall word16 (data s) -> Forall word16 (render_stores s n k).
Proof.
  unfold render_stores. generalize (seqZ 0 k) as l. generalize (data s) as d.
  intros d l. revert d. induction l as [|i l IH]; intros d Hd; simpl.
  - exact Hd.
  - apply IH. apply Forall_insert; [exact Hd | apply render_cell_range].
Qed.

(** X7: if every buffer word is a 16-bit value, it still is after an LED
    was set and after a text render. *)
Theorem buffer_words_stay_16_bit (w : world) :
  Forall word16 (data (ctrl w)) ->
  (forall led brightness r w',
     tm1628_led_set_brightness led brightness w = Ret r w' ->
     Forall word16 (data (ctrl w'))) /\
  (forall r w',
     configured (ctrl w) = true ->
     tm1628_show_text w = Ret r w' -> Forall word16 (data (ctrl w'))).
Proof.
  intros Hw. split.
  - intros led brightness r w'. unfold tm1628_led_set_brightness.
    unfold mbind at 1 2 3 4, M_bind, get_ctrl.
    destruct (arr_get (data (ctrl w)) (to_int (led_grid led - 1))) as [old|];
      [|discriminate].
    cbn [checked mret M_ret].
    destruct (arr_set (data (ctrl w)) (to_int (led_grid led - 1)) _) as [d|] eqn:Eset;
      [|discriminate].
    cbn [checked mret M_ret put_ctrl ctrl trace].
    assert (Forall word16 d) as Hd.
    { unfold arr_set in Eset.
      destruct ((0 <=? to_int (led_grid led - 1)) &&
                (to_int (led_grid led - 1) <? Z.of_nat (length (data (ctrl w)))));
        [|discriminate].
      injection Eset as <-. apply Forall_insert; [exact Hw|].
      destruct (brightness =? LED_OFF); apply u16_range. }
    unfold tm1628_write_data.
    destruct (u32 (u32 (to_int (led_grid led - 1)) + 1) >? MAX_GRID_SIZE).
    + intros [= _ <-]. exact Hd.
    + unfold mbind, M_bind, tm1628_set_address, spi_write, spi_sync_transfer,
        call, get_ctrl. cbn [ctrl trace set_data data].
      destruct (arr_slice d (u32 (to_int (led_grid led - 1))) 1);
        cbn [checked mret M_ret]; [|discriminate].
      intros [= _ <-]. exact Hd.
  - intros r w' Hc Hrun.
    destruct (configured_inv _ Hc) as (_ & Ht & _).
    destruct (strlen (text (ctrl w))) as [n|] eqn:Hn.
    + rewrite (show_text_run w n Hc Hn) in Hrun. injection Hrun as _ <-.
      cbn [ctrl set_data data]. apply render_stores_word16. exact Hw.
    + unfold tm1628_show_text, mbind at 1 2, M_bind, get_ctrl in Hrun.
      rewrite Hn in Hrun. discriminate.
Qed.

(** ** Stored text *)

Lemma store_chars_shape (t : list Z) (i : nat) (p : list Z) :
  (i + length p <= length t)%nat ->
  store_chars t i p = take i t ++ p ++ drop (i + length p) t.
Proof.
  revert t i. induction p as [|c p IH]; intros t i Hlen; simpl in *.
  - rewrite Nat.add_0_r, take_drop. reflexivity.
  - rewrite IH by (rewrite length_insert; lia).
    rewrite (take_S_r _ i c) by (apply list_lookup_insert_eq; lia).
    rewrite take_insert_ge by lia.
    rewrite drop_insert_lt by lia.
    replace (S i + length p)%nat with (i + S (length p))%nat by lia.
    rewrite <- app_assoc. reflexivity.
Qed.

Lemma terminated_text_shape (t p : list Z) :
  (length p < length t)%nat ->
  <[length p := 0]> (store_chars t 0 p) = p ++ 0 :: drop (S (length p)) t.
Proof.
  intros Hlen. rewrite store_chars_shape by (simpl; lia). simpl.
  rewrite insert_app_r_alt by lia. rewrite Nat.sub_diag.
  destruct (drop (length p) t) as [|x l] eqn:E.
  - apply (f_equal length) in E. rewrite length_drop in E. simpl in E. lia.
  - simpl. f_equal. f_equal.
    change l with (drop 1 (x :: l)). rewrite <- E, drop_drop. f_equal. lia.
Qed.

Lemma strlen_app_nul (p rest : list Z) :
  Forall (fun c => c <> 0) p -> strlen (p ++ 0 :: rest) = Some (Z.of_nat (length p)).
Proof.
  induction 1 as [|c p Hc Hp IH]; [reflexivity|].
  cbn [app strlen length]. destruct (Z.eqb_spec c 0); [contradiction|].
  rewrite IH. cbn. f_equal. lia.
Qed.

Lemma printable_prefix_printable (buf : list Z) :
  Forall (fun c => isprint c = true) (printable_prefix buf).
Proof.
  induction buf as [|c buf IH]; simpl; [constructor|].
  destruct (isprint c) eqn:E; constructor; assumption.
Qed.

Lemma printable_prefix_is_prefix (buf : list Z) :
  exists rest, buf = printable_prefix buf ++ rest.
Proof.
  induction buf as [|c buf [rest IH]]; simpl; [exists []; reflexivity|].
  destruct (isprint c).
  - exists rest. simpl. f_equal. exact IH.
  - exists (c :: buf). reflexivity.
Qed.

(** An accepted write, with the stored text spelled out. *)
Lemma display_text_store_text (w : world) (buf : list Z) (count : Z) :
  isprint 0 = false ->
  configured (ctrl w) = true ->
  0 <= count <= grid_size (ctrl w) + 1 -> count <= Z.of_nat (length buf) ->
  let p := printable_prefix (take (Z.to_nat count) buf) in
  (length p < 8)%nat ->
  let t := p ++ 0 :: drop (S (length p)) (text (ctrl w)) in
  let s' := set_text (ctrl w) t in
  exists r w',
    display_text_store buf count w = Ret r w' /\
    ctrl w' = set_data s' (render_stores s' (Z.of_nat (length p)) (grid_size (ctrl w))) /\
    strlen t = Some (Z.of_nat (length p)) /\
    configured (ctrl w') = true /\
    r = (if status (trace w') <? 0 then status (trace w') else count).
Proof.
  intros Hnul Hc Hcount Hbuf p Hp t s'.
  destruct (configured_inv _ Hc) as (Hd & Ht & _).
  destruct (display_text_store_run w buf count Hc Hcount Hbuf Hp) as (n & Hn & _ & Hrun).
  cbv zeta in Hrun. fold p in Hrun, Hn.
  assert (<[length p := 0]> (store_chars (text (ctrl w)) 0 p) =
          p ++ 0 :: drop (S (length p)) (text (ctrl w))) as Hshape.
  { apply terminated_text_shape. lia. }
  assert (strlen (p ++ 0 :: drop (S (length p)) (text (ctrl w))) =
          Some (Z.of_nat (length p))) as Hlen.
  { apply strlen_app_nul.
    eapply Forall_impl; [apply printable_prefix_printable|].
    intros c Hpr ->. simpl in Hpr. congruence. }
  rewrite Hshape in Hrun, Hn. fold t in Hrun, Hn, Hlen. fold s' in Hrun.
  assert (n = Z.of_nat (length p)) as -> by congruence.
  eexists _, _. split; [exact Hrun|]. cbn [ctrl trace].
  split; [reflexivity|]. split; [exact Hlen|].
  split; [|reflexivity].
  apply configured_set_data.
  - apply configured_set_text; [exact Hc|].
    subst t. rewrite <- Hshape, length_insert, store_chars_length. exact Ht.
  - rewrite render_stores_length. exact Hd.
Qed.

(** X8: a write longer than grid_size + 1 bytes returns -E2BIG and changes
    neither the stored text, nor the buffer, nor the bus. *)
Theorem text_store_rejects_long_writes (w : world) (buf : list Z) (count : Z) :
  grid_size (ctrl w) + 1 < count ->
  display_text_store buf count w = Ret (- E2BIG) w.
Proof. apply display_text_store_too_long. Qed.

(** X9: on a display of fewer than MAX_GRID_SIZE digits every write of at
    most grid_size + 1 bytes stays inside the text array: it returns, and the
    controller keeps the shape probe gave it. *)
Theorem text_store_in_bounds_below_max (w : world) (buf : list Z) (count : Z) :
  configured (ctrl w) = true -> grid_size (ctrl w) < MAX_GRID_SIZE ->
  0 <= count <= grid_size (ctrl w) + 1 -> count <= Z.of_nat (length buf) ->
  exists r w', display_text_store buf count w = Ret r w' /\
               configured (ctrl w') = true /\
               (r = count \/ r < 0).
Proof.
  intros Hc Hg Hcount Hbuf. unfold MAX_GRID_SIZE in Hg.
  pose proof (printable_prefix_length (take (Z.to_nat count) buf)) as Hp.
  rewrite length_take in Hp.
  destruct (display_text_store_run w buf count Hc Hcount Hbuf) as (n & _ & _ & Hrun);
    [lia|].
  cbv zeta in Hrun. eexists _, _. split; [exact Hrun|].
  cbn [ctrl]. destruct (configured_inv _ Hc) as (Hd & Ht & _).
  split.
  - apply configured_set_data.
    + apply configured_set_text; [exact Hc|].
      rewrite length_insert, store_chars_length. exact Ht.
    + rewrite render_stores_length. exact Hd.
  - match goal with |- context [if ?c then _ else _] => destruct c eqn:E end.
    + right. apply Z.ltb_lt. exact E.
    + left. reflexivity.
Qed.

(** X10: when NUL is not printable and the printable run at the head of the
    written bytes has at most grid_size bytes (a text followed by a newline,
    say), the write is accepted, exactly that run is stored and terminated,
    and the stored text is no longer than grid_size. *)
Theorem text_store_keeps_printable_run (w : world) (buf : list Z) (count : Z) :
  isprint 0 = false ->
  configured (ctrl w) = true ->
  0 <= count <= grid_size (ctrl w) + 1 -> count <= Z.of_nat (length buf) ->
  let p := printable_prefix (take (Z.to_nat count) buf) in
  Z.of_nat (length p) <= grid_size (ctrl w) ->
  exists r w' rest,
    display_text_store buf count w = Ret r w' /\
    text (ctrl w') = p ++ 0 :: rest /\
    take (Z.to_nat count) buf = p ++ drop (length p) (take (Z.to_nat count) buf) /\
    strlen (text (ctrl w')) = Some (Z.of_nat (length p)) /\
    Z.of_nat (length p) <= grid_size (ctrl w') /\
    (r = count \/ r < 0).
Proof.
  intros Hnul Hc Hcount Hbuf p Hp.
  destruct (configured_inv _ Hc) as (_ & _ & _ & _ & Hg & _).
  unfold MAX_GRID_SIZE in Hg.
  destruct (display_text_store_text w buf count Hnul Hc Hcount Hbuf)
    as (r & w' & Hrun & Hctrl & Hlen & Hc' & Hr); [fold p; lia|].
  fold p in Hctrl, Hlen.
  exists r, w', (drop (S (length p)) (text (ctrl w))).
  split; [exact Hrun|]. rewrite Hctrl. cbn [set_data set_text text grid_size].
  split; [reflexivity|]. split.
  - destruct (printable_prefix_is_prefix (take (Z.to_nat count) buf)) as [rest Hrest].
    fold p in Hrest. rewrite Hrest at 1 2. rewrite drop_app_length. reflexivity.
  - split; [exact Hlen|]. split.
    + exact Hp.
    + rewrite Hr. destruct (Z.ltb_spec (status (trace w')) 0); [right; lia | left; reflexivity].
Qed.

(** ** Reading back *)

Lemma display_text_show_run (w : world) (p rest : list Z) :
  text (ctrl w) = p ++ 0 :: rest -> Forall (fun c => c <> 0) p ->
  display_text_show w = Ret (p ++ [10], Z.of_nat (length p) + 1) w.
Proof.
  intros Ht Hp. unfold display_text_show, mbind, M_bind, get_ctrl.
  rewrite Ht, (strlen_app_nul p rest Hp). cbn [checked mret M_ret].
  rewrite Nat2Z.id, take_app_length, length_app. simpl.
  do 2 f_equal. lia.
Qed.

(** X11: after an accepted write, a read of the text attribute returns the
    printable run that was written, followed by a newline (NUL not being
    printable). *)
Theorem text_show_after_store (w : world) (buf : list Z) (count : Z) :
  isprint 0 = false ->
  configured (ctrl w) = true ->
  0 <= count <= grid_size (ctrl w) + 1 -> count <= Z.of_nat (length buf) ->
  let p := printable_prefix (take (Z.to_nat count) buf) in
  (length p < 8)%nat ->
  exists r w',
    display_text_store buf count w = Ret r w' /\
    display_text_show w' = Ret (p ++ [10], Z.of_nat (length p) + 1) w'.
Proof.
  intros Hnul Hc Hcount Hbuf p Hp.
  destruct (display_text_store_text w buf count Hnul Hc Hcount Hbuf Hp)
    as (r & w' & Hrun & Hctrl & _).
  fold p in Hctrl. exists r, w'. split; [exact Hrun|].
  apply (display_text_show_run w' p (drop (S (length p)) (text (ctrl w)))).
  - rewrite Hctrl. reflexivity.
  - eapply Forall_impl; [apply printable_prefix_printable|].
    intros c Hpr ->. simpl in Hpr. congruence.
Qed.

Lemma led_get_value (w : world) (led : tm1628_led) (d : Z) :
  length (data (ctrl w)) = 7%nat -> 1 <= led_grid led <= MAX_GRID_SIZE ->
  arr_get (data (ctrl w)) (led_grid led - 1) = Some d ->
  tm1628_led_get_brightness led w =
  Ret (if negb (Z.land d (led_mask led) =? 0) then LED_ON else LED_OFF) w.
Proof.
  intros Hd Hg Hget. destruct (led_get_run w led Hd Hg) as (d' & Hget' & Hrun).
  rewrite Hget in Hget'. injection Hget' as <-. exact Hrun.
Qed.

(** X12: rendering the empty text switches off every LED whose grid backs
    one of the digits: the renderer overwrites whole words. *)
Theorem empty_render_switches_routed_leds_off (w : world) (led : tm1628_led) :
  configured (ctrl w) = true ->
  1 <= led_grid led <= MAX_GRID_SIZE ->
  (exists i, 0 <= i < grid_size (ctrl w) /\
             physical_offset (ctrl w) i = led_grid led - 1) ->
  exists r w',
    display_text_store [] 0 w = Ret r w' /\
    tm1628_led_get_brightness led w' = Ret LED_OFF w'.
Proof.
  intros Hc Hg (i & Hi & Hroute).
  destruct (configured_inv _ Hc) as (Hd & Ht & _ & _ & Hgs & _).
  unfold MAX_GRID_SIZE in Hgs.
  destruct (display_text_store_run w [] 0 Hc) as (n & Hn & Hr & Hrun);
    [lia | simpl; lia | simpl; lia |].
  cbv zeta in Hrun. simpl printable_prefix in *. simpl length in *.
  cbn [store_chars] in *. assert (n = 0) as -> by lia.
  set (s' := set_text (ctrl w) (<[0%nat := 0]> (text (ctrl w)))) in *.
  assert (configured s' = true) as Hc'.
  { apply configured_set_text; [exact Hc|]. rewrite length_insert. exact Ht. }
  eexists _, _. split; [exact Hrun|].
  rewrite (led_get_value _ led 0); cbn [ctrl set_data data].
  - reflexivity.
  - rewrite render_stores_length. exact Hd.
  - exact Hg.
  - rewrite <- Hroute. change (physical_offset (ctrl w) i) with (physical_offset s' i).
    apply render_stores_blank; [exact Hc' | change (grid_size s') with (grid_size (ctrl w)); lia | | exact Hi].
    intros j Hj. apply render_cell_past_text. lia.
Qed.

(** X13: an accepted text write leaves the state of every LED alone whose
    grid backs none of the digits. *)
Theorem render_keeps_leds_on_unrouted_grids (w : world) (led : tm1628_led)
    (buf : list Z) (count : Z) :
  configured (ctrl w) = true ->
  0 <= count <= grid_size (ctrl w) + 1 -> count <= Z.of_nat (length buf) ->
  (length (printable_prefix (take (Z.to_nat count) buf)) < 8)%nat ->
  1 <= led_grid led <= MAX_GRID_SIZE ->
  (forall i, 0 <= i < grid_size (ctrl w) ->
             physical_offset (ctrl w) i <> led_grid led - 1) ->
  exists r w' on,
    display_text_store buf count w = Ret r w' /\
    tm1628_led_get_brightness led w = Ret on w /\
    tm1628_led_get_brightness led w' = Ret on w'.
Proof.
  intros Hc Hcount Hbuf Hp Hg Hunrouted.
  destruct (configured_inv _ Hc) as (Hd & Ht & _ & _ & Hgs & _).
  unfold MAX_GRID_SIZE in Hgs. assert (Hg' := Hg). unfold MAX_GRID_SIZE in Hg'.
  destruct (display_text_store_run w buf count Hc Hcount Hbuf Hp) as (n & Hn & Hr & Hrun).
  cbv zeta in Hrun.
  set (s' := set_text (ctrl w) _) in *.
  assert (configured s' = true) as Hc'.
  { apply configured_set_text; [exact Hc|].
    rewrite length_insert, store_chars_length. exact Ht. }
  destruct (arr_get_in_range (data (ctrl w)) (led_grid led - 1)) as [d Hget]; [lia|].
  eexists _, _, _. split; [exact Hrun|].
  split; [apply (led_get_value w led d Hd Hg Hget)|].
  apply led_get_value; cbn [ctrl set_data data].
  - rewrite render_stores_length. exact Hd.
  - exact Hg.
  - rewrite render_stores_untouched; [exact Hget | exact Hc' | | lia |].
    + change (grid_size s') with (grid_size (ctrl w)). lia.
    + intros i Hi. change (physical_offset s' i) with (physical_offset (ctrl w) i).
      apply Hunrouted. exact Hi.
Qed.

(** ** Segment remapper *)

Lemma remapped_bit_low7 (sm : list Z) (raw b : Z) :
  remapped_bit sm (raw mod 2 ^ 7) b = remapped_bit sm raw b.
Proof.
  unfold remapped_bit.
  assert (forall l, (forall j, j ∈ l -> 0 <= j < 7) ->
    existsb (fun j => Z.testbit (raw mod 2 ^ 7) j && (default 0 (arr_get sm j) - 1 =? b)) l =
    existsb (fun j => Z.testbit raw j && (default 0 (arr_get sm j) - 1 =? b)) l) as H.
  { induction l as [|j l IH]; intros Hl; [reflexivity|]. simpl.
    rewrite IH by (intros j' Hj'; apply Hl; right; exact Hj').
    rewrite Z.mod_pow2_bits_low by (apply Hl; left). reflexivity. }
  apply H. intros j Hj. apply elem_of_seqZ in Hj. lia.
Qed.

(** X14: for a validated segment table the remapped word fits 16 bits,
    depends only on the low seven bits of the pattern, and is blank exactly
    when those seven bits are. *)
Theorem remap_of_validated_table (sm : list Z) (raw : Z) :
  table_ok sm 7 MAX_SEGMENT_NUM = true ->
  exists v, remap sm raw = Some v /\ 0 <= v < 2 ^ 16 /\
            remap sm (raw mod 2 ^ 7) = Some v /\
            (v = 0 <-> raw mod 2 ^ 7 = 0).
Proof.
  intros Hok.
  destruct (remap_ok sm raw Hok) as (v & Hv & Hr & Hbits).
  destruct (remap_ok sm (raw mod 2 ^ 7) Hok) as (v' & Hv' & Hr' & Hbits').
  assert (v' = v) as ->.
  { apply Z.bits_inj'. intros b Hb.
    rewrite Hbits, Hbits', remapped_bit_low7 by lia. reflexivity. }
  exists v. split; [exact Hv|]. split; [exact Hr|]. split; [exact Hv'|].
  split.
  - intros ->. apply Z.bits_inj'. intros k Hk. rewrite Z.bits_0.
    destruct (Z.ltb_spec k 7); [|apply Z.mod_pow2_bits_high; lia].
    rewrite Z.mod_pow2_bits_low by lia.
    destruct (table_ok_get _ _ _ k Hok ltac:(lia)) as (m & Hm & Hmr).
    specialize (Hbits (m - 1) ltac:(lia)). rewrite Z.bits_0 in Hbits.
    symmetry in Hbits. unfold remapped_bit in Hbits.
    destruct (Z.testbit raw k) eqn:E; [|reflexivity].
    assert (existsb (fun j => Z.testbit raw j && (default 0 (arr_get sm j) - 1 =? m - 1))
              (seqZ 0 7) = true) as Hex; [|congruence].
    apply existsb_exists. exists k. split.
    + apply list_elem_of_In, elem_of_seqZ. lia.
    + rewrite E, Hm. simpl. apply Z.eqb_refl.
  - intros Hz. rewrite Hz, remap_blank in Hv'. congruence.
Qed.

(** ** Remove and shutdown *)

(** X15: remove unregisters the text attribute, then sends the display-off
    command, and returns 0 whatever the bus reports; shutdown sends the same
    command and unregisters nothing; neither touches the controller state. *)
Theorem remove_and_shutdown (w : world) :
  tm1628_spi_remove w =
    Ret 0 {| ctrl := ctrl w; trace := trace w ++ [EvRemoveFile; EvSpi [[135]]] |} /\
  tm1628_spi_shutdown w =
    Ret tt {| ctrl := ctrl w; trace := trace w ++ [EvSpi [[135]]] |}.
Proof.
  unfold tm1628_spi_remove, tm1628_spi_shutdown, tm1628_set_display_ctrl,
    spi_write, spi_sync_transfer, call, emit, mbind, M_bind.
  cbn [ctrl trace]. rewrite <- app_assoc. split; reflexivity.
Qed.

(** ** Child nodes *)

Lemma probe_child_skipped (c : child_node) (w : world) :
  child_skipped c = true -> probe_child c w = Ret tt w.
Proof.
  unfold child_skipped, probe_child. intros H.
  destruct (negb (reg_status c =? 0)); [reflexivity|].
  destruct ((reg0 c =? 0) || (reg0 c >? MAX_GRID_SIZE)); [reflexivity|].
  destruct ((reg1 c =? 0) || (reg1 c >? MAX_SEGMENT_NUM)); [reflexivity|].
  discriminate.
Qed.

Lemma probe_child_registers (c : child_node) (w : world) :
  child_skipped c = false ->
  let tr := trace w ++ [EvLedRegister (reg0 c) (reg1 c)] in
  probe_child c w =
  Ret tt {| ctrl := if status tr =? 0
                    then add_led (ctrl w) {| led_grid := reg0 c; led_seg := reg1 c |}
                    else ctrl w;
            trace := tr |}.
Proof.
  intros H tr. unfold child_skipped in H. unfold probe_child.
  destruct (negb (reg_status c =? 0)); [discriminate|].
  destruct ((reg0 c =? 0) || (reg0 c >? MAX_GRID_SIZE)); [discriminate|].
  destruct ((reg1 c =? 0) || (reg1 c >? MAX_SEGMENT_NUM)); [discriminate|].
  unfold tm1628_register_led, mbind, M_bind, call. cbn [ctrl trace]. fold tr.
  destruct (status tr =? 0); reflexivity.
Qed.

Lemma child_coordinates_ok (c : child_node) :
  child_skipped c = false -> child_u32 c = true ->
  led_ok {| led_grid := reg0 c; led_seg := reg1 c |} = true.
Proof.
  unfold child_skipped, child_u32, led_ok. cbn [led_grid led_seg].
  intros Hs Hu.
  rewrite !orb_false_iff in Hs. destruct Hs as ((_ & H0 & H0') & H1 & H1').
  apply andb_true_iff in Hu. destruct Hu as [Hn0 Hn1].
  apply Z.eqb_neq in H0, H1. apply Z.leb_le in Hn0, Hn1.
  destruct (Z.gtb_spec (reg0 c) MAX_GRID_SIZE); [discriminate|].
  destruct (Z.gtb_spec (reg1 c) MAX_SEGMENT_NUM); [discriminate|].
  rewrite !andb_true_iff, !Z.leb_le. repeat split; lia.
Qed.

Lemma probe_children_leds (cs : list child_node) (w : world) :
  forallb child_u32 cs = true ->
  exists evs ls,
    probe_children cs w = Ret tt {| ctrl := foldl add_led (ctrl w) ls;
                                    trace := trace w ++ evs |} /\
    forallb led_ok ls = true /\
    forallb is_led_register evs = true /\
    (length ls <= length evs)%nat /\
    length evs = length (List.filter (fun c => negb (child_skipped c)) cs).
Proof.
  revert w. induction cs as [|c cs IH]; intros w Hu.
  - exists [], []. rewrite app_nil_r. destruct w. repeat split.  simpl. lia.
  - simpl in Hu. apply andb_true_iff in Hu. destruct Hu as [Hc Hcs].
    rewrite probe_children_cons. cbn [List.filter].
    destruct (child_skipped c) eqn:Hskip; cbn [negb].
    + rewrite (probe_child_skipped c w Hskip). apply IH. exact Hcs.
    + rewrite (probe_child_registers c w Hskip). cbv zeta.
      set (tr := trace w ++ [EvLedRegister (reg0 c) (reg1 c)]).
      match goal with |- context [probe_children cs ?x] => set (w1 := x) end.
      destruct (IH w1 Hcs) as (evs & ls & Hrun & Hok & Hev & Hlen & Hcount).
      rewrite Hrun. subst w1. cbn [ctrl trace].
      destruct (status tr =? 0).
      * exists (EvLedRegister (reg0 c) (reg1 c) :: evs),
               ({| led_grid := reg0 c; led_seg := reg1 c |} :: ls).
        subst tr. rewrite <- app_assoc. split; [reflexivity|].
        cbn [forallb length is_led_register].
        rewrite (child_coordinates_ok c Hskip Hc), Hok, Hev, Hcount.
        repeat split. lia.
      * exists (EvLedRegister (reg0 c) (reg1 c) :: evs), ls.
        subst tr. rewrite <- app_assoc. split; [reflexivity|].
        cbn [forallb length is_led_register]. rewrite Hok, Hev, Hcount.
        repeat split. lia.
Qed.

(** X17: a child whose "reg" property cannot be read or whose coordinates
    are out of range is passed over: the loop behaves as if that child were
    not there. *)
Theorem child_loop_passes_over_bad_children (cs : list child_node) (w : world) :
  probe_children cs w =
  probe_children (List.filter (fun c => negb (child_skipped c)) cs) w.
Proof.
  revert w. induction cs as [|c cs IH]; intros w; [reflexivity|].
  cbn [List.filter]. destruct (child_skipped c) eqn:Hskip; cbn [negb].
  - rewrite probe_children_cons, (probe_child_skipped c w Hskip). apply IH.
  - rewrite !probe_children_cons.
    destruct (probe_child c w); [apply IH | reflexivity].
Qed.

(** ** After probe *)

(** A successful probe, given what the child loop did. *)
Lemma probe_run_success (cfg : config) (w : world) (evs : list event)
    (ls : list tm1628_led) :
  alloc_ok cfg = true ->
  let tr2 := trace w ++ probe_clear_events in
  let tr3 := tr2 ++ [mode_cmd; display_on_cmd] in
  status tr2 = 0 -> tables_valid cfg = true ->
  (if leds_class_reachable then probe_children (children cfg) else mret tt)
    {| ctrl := kzalloc_tm1628; trace := tr3 |} =
    Ret tt {| ctrl := foldl add_led kzalloc_tm1628 ls; trace := tr3 ++ evs |} ->
  tm1628_spi_probe cfg w =
  Ret (status ((tr3 ++ evs) ++ [EvCreateFile]))
      {| ctrl := probed_state cfg ls; trace := (tr3 ++ evs) ++ [EvCreateFile] |}.
Proof.
  intros Halloc tr2 tr3 Hz Htv Hchildren.
  assert (tm1628_write_data 0 MAX_GRID_SIZE
            {| ctrl := kzalloc_tm1628; trace := trace w ++ [EvMsleep 200] |} =
          Ret (status tr2) {| ctrl := kzalloc_tm1628; trace := tr2 |}) as Hclear.
  { rewrite write_data_in_range; unfold MAX_GRID_SIZE; cbn [ctrl trace]; try lia;
      [|reflexivity].
    subst tr2. unfold probe_clear_events, MAX_GRID_SIZE.
    rewrite <- app_assoc. reflexivity. }
  remember (tm1628_spi_probe cfg w) as res eqn:Hres.
  unfold tm1628_spi_probe in Hres. rewrite Halloc in Hres. cbn [negb] in Hres.
  unfold mbind at 1 2 3, M_bind, put_ctrl, emit in Hres. cbn [ctrl trace] in Hres.
  rewrite Hclear, Hz in Hres. cbn [Z.eqb negb] in Hres.
  unfold mbind at 1 2, M_bind in Hres.
  unfold tm1628_set_display_mode at 1, tm1628_set_display_ctrl at 1,
    spi_write, spi_sync_transfer, call in Hres.
  cbn [ctrl trace] in Hres.
  unfold mbind at 1, M_bind in Hres.
  assert ((tr2 ++ [EvSpi [[u8 (Z.lor TM1628_CMD_DISPLAY_MODE
                                 TM1628_DISPLAY_MODE_6_12)]]]) ++
          [EvSpi [[u8 (Z.lor (Z.lor TM1628_CMD_DISPLAY_CTRL TM1628_BRIGHTNESS_MAX)
                         TM1628_DISPLAY_CTRL_DISPLAY_ON)]]] = tr3) as Htr3.
  { subst tr3. rewrite <- app_assoc. reflexivity. }
  rewrite Htr3 in Hres. rewrite Hchildren in Hres. subst res.
  eapply probe_tables_run; [reflexivity | exact Htv].
Qed.

(** X18: if the first transfer of probe, the screen clear, fails, probe
    returns the status of that transfer at once: nothing else is sent, no
    LED and no attribute is registered, and the structure is still zeroed. *)
Theorem probe_aborts_when_clear_fails (cfg : config) (w : world) :
  alloc_ok cfg = true ->
  status (trace w ++ probe_clear_events) <> 0 ->
  tm1628_spi_probe cfg w =
  Ret (status (trace w ++ probe_clear_events))
      {| ctrl := kzalloc_tm1628; trace := trace w ++ probe_clear_events |}.
Proof.
  intros Halloc Hnz. destruct (probe_run cfg w Halloc) as [Hfail _].
  apply Hfail. exact Hnz.
Qed.

Lemma led_reads_off_on_blank_buffer (w : world) (led : tm1628_led) :
  data (ctrl w) = replicate 7 0 -> led_ok led = true ->
  tm1628_led_get_brightness led w = Ret LED_OFF w.
Proof.
  intros Hd Hok. unfold led_ok in Hok.
  rewrite !andb_true_iff, !Z.leb_le in Hok. destruct Hok as [[[H1 H2] _] _].
  assert (length (data (ctrl w)) = 7%nat) as Hlen by (rewrite Hd; reflexivity).
  destruct (arr_get_in_range (data (ctrl w)) (led_grid led - 1)) as [d Hget];
    [unfold MAX_GRID_SIZE in H2; lia|].
  rewrite (led_get_value w led d Hlen (conj H1 H2) Hget).
  assert (d = 0) as ->; [|reflexivity].
  rewrite Hd in Hget. apply arr_get_Some in Hget. destruct Hget as [_ Hget].
  apply lookup_replicate in Hget. apply Hget.
Qed.

(** X19: after a probe that passed the screen clear and the table
    validation, the controller is configured with a blank buffer: there are
    at most as many LEDs as child nodes, each with coordinates in range and
    reading off, and the text attribute reads as an empty line. *)
Theorem probe_leaves_display_blank (cfg : config) (w : world) :
  alloc_ok cfg = true ->
  forallb child_u32 (children cfg) = true ->
  status (trace w ++ probe_clear_events) = 0 ->
  tables_valid cfg = true ->
  exists r w',
    tm1628_spi_probe cfg w = Ret r w' /\
    configured (ctrl w') = true /\
    data (ctrl w') = replicate 7 0 /\
    (length (leds (ctrl w')) <= length (children cfg))%nat /\
    (forall led, In led (leds (ctrl w')) ->
       led_ok led = true /\ tm1628_led_get_brightness led w' = Ret LED_OFF w') /\
    display_text_show w' = Ret ([10], 1) w'.
Proof.
  intros Halloc Hu Hz Htv.
  assert (exists evs ls,
    (if leds_class_reachable then probe_children (children cfg) else mret tt)
      {| ctrl := kzalloc_tm1628;
         trace := (trace w ++ probe_clear_events) ++ [mode_cmd; display_on_cmd] |} =
    Ret tt {| ctrl := foldl add_led kzalloc_tm1628 ls;
              trace := ((trace w ++ probe_clear_events) ++
                        [mode_cmd; display_on_cmd]) ++ evs |} /\
    forallb led_ok ls = true /\ (length ls <= length (children cfg))%nat)
    as (evs & ls & Hchildren & Hok & Hlen).
  { destruct leds_class_reachable.
    - destruct (probe_children_leds (children cfg)
                  {| ctrl := kzalloc_tm1628;
                     trace := (trace w ++ probe_clear_events) ++
                              [mode_cmd; display_on_cmd] |} Hu)
        as (evs & ls & Hrun & Hok & _ & Hlen & Hcount).
      exists evs, ls. split; [exact Hrun|]. split; [exact Hok|].
      pose proof (List.filter_length_le (fun c => negb (child_skipped c)) (children cfg)).
      lia.
    - exists [], []. rewrite app_nil_r. repeat split. simpl. lia. }
  eexists _, _.
  split; [exact (probe_run_success cfg w evs ls Halloc Hz Htv Hchildren)|].
  cbn [ctrl].
  split; [apply probed_state_configured; exact Htv|].
  split; [reflexivity|]. split; [exact Hlen|]. split.
  - intros led Hin. cbn [probed_state leds] in Hin.
    rewrite forallb_forall in Hok. specialize (Hok led Hin).
    split; [exact Hok|].
    apply led_reads_off_on_blank_buffer; [reflexivity | exact Hok].
  - apply (display_text_show_run _ [] (replicate 7 0)); [reflexivity | constructor].
Qed.

(** ** The child loop, exactly *)

Lemma probe_children_exact (cs : list child_node) (w : world) :
  probe_children cs w =
  Ret tt {| ctrl := foldl add_led (ctrl w) (kept_leds (trace w) cs);
            trace := trace w ++ registration_attempts cs |}.
Proof.
  revert w. induction cs as [|c cs IH]; intros w.
  - unfold registration_attempts. simpl. rewrite app_nil_r. destruct w. reflexivity.
  - rewrite probe_children_cons. unfold registration_attempts.
    cbn [kept_leds List.filter].
    destruct (child_skipped c) eqn:Hskip; cbn [negb].
    + rewrite (probe_child_skipped c w Hskip). apply IH.
    + rewrite (probe_child_registers c w Hskip). cbv zeta.
      rewrite IH. cbn [ctrl trace map]. unfold registration_attempts.
      rewrite <- app_assoc. cbn [app].
      destruct (status (trace w ++ [EvLedRegister (reg0 c) (reg1 c)]) =? 0);
        reflexivity.
Qed.

Lemma registration_attempts_checked (cs : list child_node) (g sg : Z) :
  In (EvLedRegister g sg) (registration_attempts cs) ->
  exists c, In c cs /\ reg_status c = 0 /\ g = reg0 c /\ sg = reg1 c /\
            reg0 c <> 0 /\ reg0 c <= MAX_GRID_SIZE /\
            reg1 c <> 0 /\ reg1 c <= MAX_SEGMENT_NUM.
Proof.
  unfold registration_attempts. intros Hin.
  apply in_map_iff in Hin. destruct Hin as (c & Heq & Hc).
  apply filter_In in Hc. destruct Hc as [Hc Hskip].
  injection Heq as <- <-.
  exists c. split; [exact Hc|].
  apply negb_true_iff in Hskip. unfold child_skipped in Hskip.
  rewrite !orb_false_iff in Hskip. destruct Hskip as ((Hst & H0 & H0') & H1 & H1').
  apply negb_false_iff, Z.eqb_eq in Hst. apply Z.eqb_neq in H0, H1.
  destruct (Z.gtb_spec (reg0 c) MAX_GRID_SIZE); [discriminate|].
  destruct (Z.gtb_spec (reg1 c) MAX_SEGMENT_NUM); [discriminate|].
  repeat split; assumption.
Qed.

Lemma registration_attempts_are_registrations (cs : list child_node) :
  forallb is_led_register (registration_attempts cs) = true.
Proof.
  unfold registration_attempts.
  induction (List.filter (fun c => negb (child_skipped c)) cs) as [|c l IH];
    [reflexivity | exact IH].
Qed.

Lemma kept_leds_ok (tr : list event) (cs : list child_node) :
  forallb child_u32 cs = true -> forallb led_ok (kept_leds tr cs) = true.
Proof.
  revert tr. induction cs as [|c cs IH]; intros tr Hu; [reflexivity|].
  simpl in Hu. apply andb_true_iff in Hu. destruct Hu as [Hc Hcs].
  cbn [kept_leds]. destruct (child_skipped c) eqn:Hskip; [apply IH; exact Hcs|].
  cbv zeta. rewrite forallb_app, IH by exact Hcs.
  destruct (status _ =? 0); [|reflexivity].
  cbn [forallb]. rewrite (child_coordinates_ok c Hskip Hc). reflexivity.
Qed.

Lemma kept_leds_registered (tr : list event) (cs : list child_node) (l : tm1628_led) :
  In l (kept_leds tr cs) ->
  exists pre post,
    registration_attempts cs =
      pre ++ EvLedRegister (led_grid l) (led_seg l) :: post /\
    status (tr ++ pre ++ [EvLedRegister (led_grid l) (led_seg l)]) = 0.
Proof.
  revert tr. induction cs as [|c cs IH]; intros tr Hin; [destruct Hin|].
  unfold registration_attempts in *. cbn [kept_leds List.filter] in *.
  destruct (child_skipped c) eqn:Hskip; cbn [negb map].
  - apply IH. exact Hin.
  - cbv zeta in Hin. apply in_app_or in Hin. destruct Hin as [Hin|Hin].
    + destruct (Z.eqb_spec (status (tr ++ [EvLedRegister (reg0 c) (reg1 c)])) 0)
        as [Hz|]; [|destruct Hin].
      destruct Hin as [<-|[]]. cbn [led_grid led_seg].
      exists [], (map (fun c => EvLedRegister (reg0 c) (reg1 c))
                   (List.filter (fun c => negb (child_skipped c)) cs)).
      split; [reflexivity | exact Hz].
    + destruct (IH _ Hin) as (pre & post & Heq & Hst).
      exists (EvLedRegister (reg0 c) (reg1 c) :: pre), post.
      rewrite Heq. split; [reflexivity|].
      rewrite <- app_assoc in Hst. exact Hst.
Qed.

Lemma kept_leds_length (tr : list event) (cs : list child_node) :
  (length (kept_leds tr cs) <= length (registration_attempts cs))%nat.
Proof.
  revert tr. unfold registration_attempts.
  induction cs as [|c cs IH]; intros tr; [simpl; lia|].
  cbn [kept_leds List.filter]. destruct (child_skipped c); cbn [negb]; [apply IH|].
  cbv zeta. rewrite length_app. cbn [map length].
  specialize (IH (tr ++ [EvLedRegister (reg0 c) (reg1 c)])).
  destruct (status _ =? 0); simpl; lia.
Qed.

(** X16: the child loop attempts exactly one LED registration for each
    child that is not passed over, in order, and issues nothing else; it
    keeps an LED only if the registration attempted for it returned 0, at
    most one per attempt; and, the reg cells being u32 values, every LED it
    keeps has its grid in 1..MAX_GRID_SIZE and its segment in
    1..MAX_SEGMENT_NUM. *)
Theorem child_loop_registers_valid_leds (cs : list child_node) (w : world) :
  forallb child_u32 cs = true ->
  exists ls,
    probe_children cs w =
      Ret tt {| ctrl := foldl add_led (ctrl w) ls;
                trace := trace w ++ registration_attempts cs |} /\
    ls = kept_leds (trace w) cs /\
    (forall l, In l ls ->
       exists pre post,
         registration_attempts cs =
           pre ++ EvLedRegister (led_grid l) (led_seg l) :: post /\
         status (trace w ++ pre ++ [EvLedRegister (led_grid l) (led_seg l)]) = 0) /\
    forallb led_ok ls = true /\
    (length ls <= length (registration_attempts cs))%nat.
Proof.
  intros Hu. exists (kept_leds (trace w) cs).
  split; [apply probe_children_exact|]. split; [reflexivity|].
  split; [intros l; apply kept_leds_registered|].
  split; [apply kept_leds_ok; exact Hu | apply kept_leds_length].
Qed.

(** ** The bounds check of write_data *)


(** ** The order of probe *)

(** Probe after a successful screen clear, given what the child loop did. *)
Lemma probe_run_given_children (cfg : config) (w : world) (evs : list event)
    (ls : list tm1628_led) :
  alloc_ok cfg = true ->
  let tr2 := trace w ++ probe_clear_events in
  let tr3 := tr2 ++ [mode_cmd; display_on_cmd] in
  status tr2 = 0 ->
  (if leds_class_reachable then probe_children (children cfg) else mret tt)
    {| ctrl := kzalloc_tm1628; trace := tr3 |} =
    Ret tt {| ctrl := foldl add_led kzalloc_tm1628 ls; trace := tr3 ++ evs |} ->
  (tables_valid cfg = false ->
   exists r s', r < 0 /\
     tm1628_spi_probe cfg w = Ret r {| ctrl := s'; trace := tr3 ++ evs |}) /\
  (tables_valid cfg = true ->
   tm1628_spi_probe cfg w =
   Ret (status ((tr3 ++ evs) ++ [EvCreateFile]))
       {| ctrl := probed_state cfg ls; trace := (tr3 ++ evs) ++ [EvCreateFile] |}).
Proof.
  intros Halloc tr2 tr3 Hz Hchildren.
  assert (tm1628_write_data 0 MAX_GRID_SIZE
            {| ctrl := kzalloc_tm1628; trace := trace w ++ [EvMsleep 200] |} =
          Ret (status tr2) {| ctrl := kzalloc_tm1628; trace := tr2 |}) as Hclear.
  { rewrite write_data_in_range; unfold MAX_GRID_SIZE; cbn [ctrl trace]; try lia;
      [|reflexivity].
    subst tr2. unfold probe_clear_events, MAX_GRID_SIZE.
    rewrite <- app_assoc. reflexivity. }
  remember (tm1628_spi_probe cfg w) as res eqn:Hres.
  unfold tm1628_spi_probe in Hres. rewrite Halloc in Hres. cbn [negb] in Hres.
  unfold mbind at 1 2 3, M_bind, put_ctrl, emit in Hres. cbn [ctrl trace] in Hres.
  rewrite Hclear, Hz in Hres. cbn [Z.eqb negb] in Hres.
  unfold mbind at 1 2, M_bind in Hres.
  unfold tm1628_set_display_mode at 1, tm1628_set_display_ctrl at 1,
    spi_write, spi_sync_transfer, call in Hres.
  cbn [ctrl trace] in Hres.
  unfold mbind at 1, M_bind in Hres.
  assert ((tr2 ++ [EvSpi [[u8 (Z.lor TM1628_CMD_DISPLAY_MODE
                                 TM1628_DISPLAY_MODE_6_12)]]]) ++
          [EvSpi [[u8 (Z.lor (Z.lor TM1628_CMD_DISPLAY_CTRL TM1628_BRIGHTNESS_MAX)
                         TM1628_DISPLAY_CTRL_DISPLAY_ON)]]] = tr3) as Htr3.
  { subst tr3. rewrite <- app_assoc. reflexivity. }
  rewrite Htr3 in Hres. rewrite Hchildren in Hres. subst res.
  eapply probe_tables_run. reflexivity.
Qed.

Lemma probe_led_events_run (cfg : config) (tr : list event) :
  (if leds_class_reachable then probe_children (children cfg) else mret tt)
    {| ctrl := kzalloc_tm1628; trace := tr |} =
  Ret tt {| ctrl := foldl add_led kzalloc_tm1628
                      (if leds_class_reachable then kept_leds tr (children cfg)
                       else []);
            trace := tr ++ probe_led_events cfg |}.
Proof.
  unfold probe_led_events. destruct leds_class_reachable.
  - apply probe_children_exact.
  - rewrite app_nil_r. reflexivity.
Qed.

(** C8 (as the driver has it): probe first allocates the controller state
    and binds it to the bus device (its bus link step) and stops with -ENOMEM
    if that fails; it then sleeps
    for the settle delay, clears the whole buffer and stops with the bus
    status if that transfer failed; otherwise it sends the mode and the
    display-on commands, then attempts one LED registration for each child
    node in turn whose reg property was read and whose coordinates passed
    their check, whatever the tables are, then validates the display length
    and the two tables and, only if they are valid, registers the text
    attribute; its result is the first error met, and 0 only if every one of
    these steps succeeded. *)
Theorem probe_order (cfg : config) (w : world) :
  exists r w',
    tm1628_spi_probe cfg w = Ret r w' /\
    trace w' = trace w ++
      (if alloc_ok cfg then
         probe_clear_events ++
         (if status (trace w ++ probe_clear_events) =? 0 then
            [mode_cmd; display_on_cmd] ++ probe_led_events cfg ++
            (if tables_valid cfg then [EvCreateFile] else [])
          else [])
       else []) /\
    (forall g sg, In (EvLedRegister g sg) (probe_led_events cfg) ->
       exists c, In c (children cfg) /\ reg_status c = 0 /\
                 g = reg0 c /\ sg = reg1 c /\
                 reg0 c <> 0 /\ reg0 c <= MAX_GRID_SIZE /\
                 reg1 c <> 0 /\ reg1 c <= MAX_SEGMENT_NUM) /\
    forallb is_led_register (probe_led_events cfg) = true /\
    (alloc_ok cfg = false -> r = - ENOMEM) /\
    (alloc_ok cfg = true -> status (trace w ++ probe_clear_events) <> 0 ->
     r = status (trace w ++ probe_clear_events)) /\
    (alloc_ok cfg = true -> status (trace w ++ probe_clear_events) = 0 ->
     (tables_valid cfg = false -> r < 0) /\
     (tables_valid cfg = true -> r = status (trace w'))) /\
    (r = 0 -> alloc_ok cfg = true /\
              status (trace w ++ probe_clear_events) = 0 /\
              tables_valid cfg = true /\
              status (trace w') = 0) /\
    (In EvCreateFile (drop (length (trace w)) (trace w')) -> tables_valid cfg = true).
Proof.
  assert (forall g sg, In (EvLedRegister g sg) (probe_led_events cfg) ->
       exists c, In c (children cfg) /\ reg_status c = 0 /\
                 g = reg0 c /\ sg = reg1 c /\
                 reg0 c <> 0 /\ reg0 c <= MAX_GRID_SIZE /\
                 reg1 c <> 0 /\ reg1 c <= MAX_SEGMENT_NUM) as Hchecked.
  { unfold probe_led_events. destruct leds_class_reachable; [|intros g sg []].
    intros g sg. apply registration_attempts_checked. }
  assert (forallb is_led_register (probe_led_events cfg) = true) as Hleds.
  { unfold probe_led_events. destruct leds_class_reachable; [|reflexivity].
    apply registration_attempts_are_registrations. }
  destruct (alloc_ok cfg) eqn:Halloc.
  2:{ exists (- ENOMEM), w. unfold tm1628_spi_probe. rewrite Halloc.
      split; [reflexivity|]. split; [rewrite app_nil_r; reflexivity|].
      split; [exact Hchecked|]. split; [exact Hleds|].
      split; [reflexivity|]. split; [discriminate|]. split; [discriminate|].
      split; [unfold ENOMEM; lia|].
      rewrite drop_all. intros []. }
  destruct (Z.eqb_spec (status (trace w ++ probe_clear_events)) 0) as [Hz|Hnz].
  2:{ destruct (probe_run cfg w Halloc) as [Hfail _]. cbv zeta in Hfail.
      eexists _, _. split; [exact (Hfail Hnz)|]. cbn [trace].
      split; [rewrite app_nil_r; reflexivity|].
      split; [exact Hchecked|]. split; [exact Hleds|].
      split; [discriminate|]. split; [reflexivity|].
      split; [intros _ Hz; contradiction|].
      split; [intros Hr; contradiction|].
      rewrite drop_app_length. intros Hin.
      destruct (probe_clear_events_no_create_file Hin). }
  destruct (probe_run_given_children cfg w _ _ Halloc Hz
              (probe_led_events_run cfg _)) as [Hbad Hgood].
  destruct (tables_valid cfg) eqn:Htv.
  - eexists _, _. split; [exact (Hgood eq_refl)|]. cbn [trace].
    split; [rewrite <- !app_assoc; reflexivity|].
    split; [exact Hchecked|]. split; [exact Hleds|].
    split; [discriminate|]. split; [intros _ Hnz; contradiction|].
    split; [intros _ _; split; [discriminate | reflexivity]|].
    split; [|reflexivity].
    intros Hr. repeat split; assumption.
  - destruct (Hbad eq_refl) as (r & s' & Hr & Hrun).
    eexists _, _. split; [exact Hrun|]. cbn [trace].
    split; [rewrite app_nil_r, <- !app_assoc; reflexivity|].
    split; [exact Hchecked|]. split; [exact Hleds|].
    split; [discriminate|]. split; [intros _ Hnz; contradiction|].
    split; [intros _ _; split; [intros _; exact Hr | discriminate]|].
    split; [lia|].
    rewrite <- !app_assoc, drop_app_length. intros Hin.
    apply in_app_or in Hin. destruct Hin as [Hin|Hin];
      [destruct (probe_clear_events_no_create_file Hin)|].
    destruct Hin as [Hin|[Hin|Hin]]; try discriminate.
    destruct (led_events_no_create_file _ Hleds Hin).
Qed.

End Driver.

(** ** The bus status and the result of write_data *)

(** C10: when offset + length is within capacity, write_data issues the
    address-set command and then the data transfer whatever status the bus
    reported for the address-set command, and its result is the status of
    the data transfer alone. *)
Theorem write_data_ignores_address_status (big_endian : bool) (w : world)
    (offset len : Z) :
  0 <= offset -> 0 <= len -> offset + len <= MAX_GRID_SIZE ->
  length (data (ctrl w)) = 7%nat ->
  exists w',
    trace w' = trace w ++ [address_cmd offset;
                           data_burst big_endian (data (ctrl w)) offset len] /\
    ctrl w' = ctrl w /\
    forall status : list event -> Z,
      tm1628_write_data big_endian status offset len w = Ret (status (trace w')) w'.
Proof.
  intros Ho Hl Hs Hd.
  exists {| ctrl := ctrl w;
            trace := trace w ++
                     write_data_events big_endian (data (ctrl w)) offset len |}.
  split; [reflexivity|]. split; [reflexivity|].
  intros status. apply write_data_in_range; assumption.
Qed.

Lemma write_data_ignores_address_status_witness :
  exists w',
    trace w' = [address_cmd 1; data_burst false (data display4) 1 3] /\
    forall status : list event -> Z,
      tm1628_write_data false status 1 3 (boot display4) = Ret (status (trace w')) w'.
Proof.
  destruct (write_data_ignores_address_status false (boot display4) 1 3)
    as (w' & Htr & _ & Hrun); [lia | lia | unfold MAX_GRID_SIZE; lia | reflexivity |].
  exists w'. split; [exact Htr | exact Hrun].
Defined.

(** ** Instances on the four-digit display *)

(** Setting the output at grid 2, segment 3 ORs bit 2 into word 1 and sends
    that single word. *)
Example led_on_grid2_segment3 :
  tm1628_led_set_brightness false bus_ok {| led_grid := 2; led_seg := 3 |} LED_ON
    (boot display4) =
  Ret 0 {| ctrl := set_data display4 [0; 4; 0; 0; 0; 0; 0];
           trace := [EvSpi [[194]]; EvSpi [[64]; [4; 0]]] |}.
Proof. reflexivity. Qed.

(** On a big-endian host the stored word is byte-swapped and the bytes on
    the wire are the same. *)
Example led_on_grid2_segment3_big_endian :
  tm1628_led_set_brightness true bus_ok {| led_grid := 2; led_seg := 3 |} LED_ON
    (boot display4) =
  Ret 0 {| ctrl := set_data display4 [0; 1024; 0; 0; 0; 0; 0];
           trace := [EvSpi [[194]]; EvSpi [[64]; [4; 0]]] |}.
Proof. reflexivity. Qed.

(** Writing "1234" followed by a newline renders the four digits in one
    burst. *)
Example text_1234_newline :
  display_text_store false bus_ok false seg7_digits ascii_isprint
    [49; 50; 51; 52; 10] 5 (boot display4) =
  Ret 5 {| ctrl := set_data (set_text display4 [49; 50; 51; 52; 0; 0; 0; 0])
                            [6; 91; 79; 102; 0; 0; 0];
           trace := [EvSpi [[192]];
                     EvSpi [[64]; [6; 0; 91; 0; 79; 0; 102; 0]]] |}.
Proof. reflexivity. Qed.

(** A write of six bytes to the four-digit display is refused. *)
Example text_too_long_refused :
  display_text_store false bus_ok false seg7_digits ascii_isprint
    [49; 50; 51; 52; 53; 10] 6 (boot display4) = Ret (- E2BIG) (boot display4).
Proof. reflexivity. Qed.

(** A failing bus leaves the buffer updated and hands the error back. *)
Example text_store_bus_failure :
  display_text_store false (fun _ => -5) false seg7_digits ascii_isprint
    [49; 10] 2 (boot display4) =
  Ret (-5) {| ctrl := set_data (set_text display4 [49; 0; 0; 0; 0; 0; 0; 0])
                               [6; 0; 0; 0; 0; 0; 0];
              trace := [EvSpi [[192]];
                        EvSpi [[64]; [6; 0; 0; 0; 0; 0; 0; 0]]] |}.
Proof. reflexivity. Qed.

Lemma show_text_renders_each_digit_witness :
  configured display4_12 = true /\
  strlen (text display4_12) = Some 2 /\
  exists r w',
    tm1628_show_text false bus_ok false seg7_digits (boot display4_12) = Ret r w' /\
    arr_get (data (ctrl w')) 1 = Some 91 /\
    arr_get (data (ctrl w')) 2 = Some 0 /\
    r = 0.
Proof.
  split; [reflexivity|]. split; [reflexivity|].
  destruct (show_text_renders_each_digit false bus_ok false seg7_digits
              (boot display4_12) 2 eq_refl eq_refl)
    as (r & w' & Hrun & _ & _ & _ & Hlast & Hr).
  exists r, w'. split; [exact Hrun|].
  split; [|split].
  - apply (Hlast 1); [cbn; lia|]. intros j Hj.
    assert (j = 2 \/ j = 3) as [-> | ->] by (cbn in Hj; lia); discriminate.
  - apply (Hlast 2); [cbn; lia|]. intros j Hj.
    assert (j = 3) as -> by (cbn in Hj; lia). discriminate.
  - rewrite Hr. reflexivity.
Defined.

Lemma led_set_then_get_witness :
  exists r w',
    tm1628_led_set_brightness false bus_ok {| led_grid := 2; led_seg := 3 |} LED_ON
      (boot display4) = Ret r w' /\
    tm1628_led_get_brightness false {| led_grid := 2; led_seg := 3 |} w' =
      Ret LED_ON w'.
Proof.
  destruct (led_set_then_get false bus_ok (boot display4)
              {| led_grid := 2; led_seg := 3 |} LED_ON)
    as (r & w' & Hset & Hget & _);
    [reflexivity | cbn; unfold MAX_GRID_SIZE; lia
     | cbn; unfold MAX_SEGMENT_NUM; lia |].
  exists r, w'. split; [exact Hset | exact Hget].
Defined.

Lemma empty_render_clears_routed_words_witness :
  configured display4 = true /\
  exists r1 w1 r2 w2,
    display_text_store false bus_ok false seg7_digits ascii_isprint
      [49; 50; 51; 52] 4 (boot display4) = Ret r1 w1 /\
    display_text_store false bus_ok false seg7_digits ascii_isprint [] 0 w1
      = Ret r2 w2 /\
    forall p, 0 <= p < 4 -> arr_get (data (ctrl w2)) p = Some 0.
Proof.
  split; [reflexivity|].
  destruct (empty_render_clears_routed_words false bus_ok false seg7_digits
              ascii_isprint (boot display4) [49; 50; 51; 52] eq_refl eq_refl)
    as (r1 & w1 & r2 & w2 & Hrun1 & Hrun2 & _ & _ & Hfull).
  exists r1, w1, r2, w2. split; [exact Hrun1|]. split; [exact Hrun2|].
  apply Hfull. intros p Hp. exists p. split; [exact Hp|].
  cbn in Hp.
  assert (p = 0 \/ p = 1 \/ p = 2 \/ p = 3) as [-> | [-> | [-> | ->]]] by lia;
    reflexivity.
Defined.


(** ** Examples of the text attribute *)

(** C3: on a four-digit display a write of the five printable bytes
    "12345" is accepted and leaves a stored text of length 5. *)
Theorem text_store_keeps_five_characters_on_four_digits :
  exists w',
    display_text_store false bus_ok false seg7_digits ascii_isprint
      [49; 50; 51; 52; 53] 5 (boot display4) = Ret 5 w' /\
    strlen (text (ctrl w')) = Some 5 /\
    grid_size (ctrl w') = 4.
Proof. eexists. repeat split. Qed.

(** C9: on a seven-digit display a write of eight printable bytes passes the
    length check, the copy loop stores at the indices 0 to 7, and the
    terminator is stored at index 8, one past the end of the array. *)
Theorem text_store_terminator_past_the_array :
  (8 >? grid_size display7 + 1) = false /\
  exists w',
    copy_printable ascii_isprint [49; 50; 51; 52; 53; 54; 55; 56] 0 8
      (boot display7) = Ret 8 w' /\
    length (text (ctrl w')) = 8%nat /\
    arr_set (text (ctrl w')) 8 0 = None /\
    display_text_store false bus_ok false seg7_digits ascii_isprint
      [49; 50; 51; 52; 53; 54; 55; 56] 8 (boot display7) = Fault w'.
Proof. split; [reflexivity|]. eexists. repeat split. Qed.

(** C4: the byte 200 is printable in the kernel's character table and lies
    outside the font table; the encoder answers -EINVAL, the renderer masks
    that value like a pattern, and the digit shows the segments 106 instead
    of being blank, whether char is signed or not. *)
Theorem unsupported_character_renders_error_bits (char_signed : bool) :
  latin1_isprint 200 = true /\
  arr_get seg7_digits (char_to_int char_signed 200) = None /\
  map_to_seg7 seg7_digits (char_to_int char_signed 200) = - EINVAL /\
  remap (segment_mapping display4) (- EINVAL) = Some 106 /\
  exists w',
    display_text_store false bus_ok char_signed seg7_digits latin1_isprint
      [200; 10] 2 (boot display4) = Ret 2 w' /\
    text (ctrl w') = [200; 0; 0; 0; 0; 0; 0; 0] /\
    data (ctrl w') = [106; 0; 0; 0; 0; 0; 0].
Proof.
  destruct char_signed;
    (split; [reflexivity|]; split; [reflexivity|]; split; [reflexivity|];
     split; [reflexivity|]; eexists; split; [lazy; reflexivity|];
     split; reflexivity).
Qed.

(** ** Counterexamples *)


(** C6: with the grid table [1; 1] of a two-digit display, word 1 is never
    stored by the renderer: lit by the LED on grid 2, it is still lit after
    a two-character render followed by an empty render. *)
Lemma aliased_grid_table_is_not_fully_cleared :
  exists w0 w1 w2 w3,
    tm1628_spi_probe false bus_ok true cfg_aliased (boot kzalloc_tm1628) = Ret 0 w0 /\
    configured (ctrl w0) = true /\ grid_size (ctrl w0) = 2 /\
    tm1628_led_set_brightness false bus_ok {| led_grid := 2; led_seg := 1 |} LED_ON w0
      = Ret 0 w1 /\
    display_text_store false bus_ok false seg7_digits ascii_isprint [49; 50] 2 w1
      = Ret 2 w2 /\
    display_text_store false bus_ok false seg7_digits ascii_isprint [] 0 w2
      = Ret 0 w3 /\
    arr_get (data (ctrl w3)) 1 = Some 1.
Proof.
  eexists _, _, _, _.
  split; [lazy; reflexivity|]. split; [reflexivity|]. split; [reflexivity|].
  split; [lazy; reflexivity|]. split; [lazy; reflexivity|].
  split; [lazy; reflexivity|]. reflexivity.
Qed.

(** C8: with a valid LED child and no grid property, probe registers the
    LED and then fails configuration validation. *)
Lemma led_registered_before_validation :
  exists w',
    tm1628_spi_probe false bus_ok true cfg_no_grid (boot kzalloc_tm1628)
      = Ret (- EINVAL) w' /\
    tables_valid cfg_no_grid = false /\
    last (trace w') = Some (EvLedRegister 1 1) /\
    leds (ctrl w') = [{| led_grid := 1; led_seg := 1 |}].
Proof.
  eexists. split; [lazy; reflexivity|]. repeat split.
Qed.


(** ** Instances of the further properties *)

Ltac by_computation :=
  repeat split;
  first [ reflexivity
        | apply Z.leb_le; reflexivity
        | apply Z.ltb_lt; reflexivity
        | apply Nat.ltb_lt; reflexivity
        | apply Nat.leb_le; reflexivity ].

Lemma write_data_rejects_out_of_range_witness :
  tm1628_write_data false bus_ok 3 5 (boot display4) = Ret (- EINVAL) (boot display4).
Proof.
  apply (write_data_rejects_out_of_range false bus_ok (boot display4) 3 5);
    unfold MAX_GRID_SIZE; lia.
Defined.

Lemma write_data_wire_format_witness :
  exists r w' payload,
    tm1628_write_data false bus_ok 1 3 (boot display4) = Ret r w' /\
    trace w' = trace (boot display4) ++
               [EvSpi [[192 + 2 * 1]]; EvSpi [[64]; payload]] /\
    Z.of_nat (length payload) = 2 * 3.
Proof.
  apply (write_data_wire_format false bus_ok (boot display4) 1 3);
    [lia | lia | unfold MAX_GRID_SIZE; lia | reflexivity].
Defined.

Lemma wire_bytes_are_low_byte_first_witness :
  mem_bytes16 true (cpu_to_le16 true 4660) = [Z.land 4660 255; Z.shiftr 4660 8].
Proof. apply (wire_bytes_are_low_byte_first true 4660). lia. Defined.

Lemma led_set_updates_one_word_witness :
  exists r w',
    tm1628_led_set_brightness false bus_down {| led_grid := 2; led_seg := 3 |}
      LED_ON (boot display4) = Ret r w' /\
    data (ctrl w') = [0; 4; 0; 0; 0; 0; 0] /\ r = -5.
Proof.
  destruct (led_set_updates_one_word false bus_down (boot display4)
              {| led_grid := 2; led_seg := 3 |} LED_ON)
    as (old & r & w' & Hold & Hrun & Hctrl & _ & _ & Hr);
    [reflexivity | cbn; unfold MAX_GRID_SIZE; lia |].
  exists r, w'. split; [exact Hrun|].
  injection Hold as <-. rewrite Hctrl, Hr. split; reflexivity.
Defined.

Lemma led_on_then_off_restores_buffer_witness :
  exists r1 w1 r2 w2,
    tm1628_led_set_brightness false bus_ok {| led_grid := 2; led_seg := 3 |}
      LED_ON (boot display4) = Ret r1 w1 /\
    tm1628_led_set_brightness false bus_ok {| led_grid := 2; led_seg := 3 |}
      LED_OFF w1 = Ret r2 w2 /\
    ctrl w2 = display4.
Proof.
  apply (led_on_then_off_restores_buffer false bus_ok (boot display4)
           {| led_grid := 2; led_seg := 3 |} LED_ON 0);
    [reflexivity | cbn; unfold MAX_GRID_SIZE; lia
     | cbn; unfold MAX_SEGMENT_NUM; lia | reflexivity
     | unfold word16; lia | reflexivity].
Defined.

Lemma led_set_is_idempotent_witness :
  exists r1 w1 r2 w2,
    tm1628_led_set_brightness true bus_ok {| led_grid := 7; led_seg := 16 |}
      LED_ON (boot display4) = Ret r1 w1 /\
    tm1628_led_set_brightness true bus_ok {| led_grid := 7; led_seg := 16 |}
      LED_ON w1 = Ret r2 w2 /\
    ctrl w2 = ctrl w1.
Proof.
  apply (led_set_is_idempotent true bus_ok (boot display4)
           {| led_grid := 7; led_seg := 16 |} LED_ON);
    [reflexivity | cbn; unfold MAX_GRID_SIZE; lia
     | cbn; unfold MAX_SEGMENT_NUM; lia].
Defined.

Lemma buffer_words_stay_16_bit_witness :
  Forall word16 (data display4_12) /\
  forall r w',
    tm1628_show_text false bus_ok false seg7_digits (boot display4_12) = Ret r w' ->
    Forall word16 (data (ctrl w')).
Proof.
  assert (Forall word16 (data display4_12)) as H
    by (repeat constructor; unfold word16; lia).
  split; [exact H|]. intros r w'.
  apply (buffer_words_stay_16_bit false bus_ok false seg7_digits (boot display4_12) H).
  reflexivity.
Defined.

Lemma text_store_rejects_long_writes_witness :
  display_text_store false bus_ok false seg7_digits ascii_isprint
    [49; 50; 51; 52; 53; 54] 6 (boot display4) = Ret (- E2BIG) (boot display4).
Proof.
  apply (text_store_rejects_long_writes false bus_ok false seg7_digits ascii_isprint
           (boot display4)).
  cbn. lia.
Defined.

Lemma text_store_in_bounds_below_max_witness :
  exists r w',
    display_text_store false bus_ok false seg7_digits ascii_isprint
      [49; 50; 51; 52; 53] 5 (boot display4) = Ret r w' /\
    configured (ctrl w') = true /\ (r = 5 \/ r < 0).
Proof.
  apply (text_store_in_bounds_below_max false bus_ok false seg7_digits ascii_isprint
           (boot display4) [49; 50; 51; 52; 53] 5);
    by_computation.
Defined.

Lemma text_store_keeps_printable_run_witness :
  exists r w' rest,
    display_text_store false bus_ok false seg7_digits ascii_isprint
      [49; 50; 51; 52; 10] 5 (boot display4) = Ret r w' /\
    text (ctrl w') = [49; 50; 51; 52] ++ 0 :: rest /\
    strlen (text (ctrl w')) = Some 4.
Proof.
  destruct (text_store_keeps_printable_run false bus_ok false seg7_digits
              ascii_isprint (boot display4) [49; 50; 51; 52; 10] 5)
    as (r & w' & rest & Hrun & Htext & _ & Hlen & _);
    [by_computation | by_computation | by_computation | by_computation
     | by_computation |].
  exists r, w', rest. split; [exact Hrun|]. split; [exact Htext | exact Hlen].
Defined.

Lemma text_show_after_store_witness :
  exists r w',
    display_text_store false bus_ok false seg7_digits ascii_isprint
      [49; 50; 51; 52; 10] 5 (boot display4) = Ret r w' /\
    display_text_show w' = Ret ([49; 50; 51; 52; 10], 5) w'.
Proof.
  apply (text_show_after_store false bus_ok false seg7_digits ascii_isprint
           (boot display4) [49; 50; 51; 52; 10] 5);
    by_computation.
Defined.

Lemma empty_render_switches_routed_leds_off_witness :
  exists r w',
    display_text_store false bus_ok false seg7_digits ascii_isprint [] 0
      (boot display4) = Ret r w' /\
    tm1628_led_get_brightness false {| led_grid := 2; led_seg := 3 |} w' =
      Ret LED_OFF w'.
Proof.
  apply (empty_render_switches_routed_leds_off false bus_ok false seg7_digits
           ascii_isprint (boot display4) {| led_grid := 2; led_seg := 3 |});
    [reflexivity | cbn; unfold MAX_GRID_SIZE; lia |].
  exists 1. split; [cbn; lia | reflexivity].
Defined.

Lemma render_keeps_leds_on_unrouted_grids_witness :
  exists r w' on,
    display_text_store false bus_ok false seg7_digits ascii_isprint [49; 50] 2
      (boot display4) = Ret r w' /\
    tm1628_led_get_brightness false {| led_grid := 6; led_seg := 1 |}
      (boot display4) = Ret on (boot display4) /\
    tm1628_led_get_brightness false {| led_grid := 6; led_seg := 1 |} w' = Ret on w'.
Proof.
  apply (render_keeps_leds_on_unrouted_grids false bus_ok false seg7_digits
           ascii_isprint (boot display4) {| led_grid := 6; led_seg := 1 |}
           [49; 50] 2);
    [by_computation | by_computation | by_computation | by_computation
     | by_computation |].
  intros i Hi. cbn in Hi.
  assert (i = 0 \/ i = 1 \/ i = 2 \/ i = 3) as [-> | [-> | [-> | ->]]] by lia;
    discriminate.
Defined.

Lemma remap_of_validated_table_witness :
  exists v, remap [7; 6; 5; 4; 3; 2; 1] 63 = Some v /\ 0 <= v < 2 ^ 16 /\
            remap [7; 6; 5; 4; 3; 2; 1] (63 mod 2 ^ 7) = Some v /\
            (v = 0 <-> 63 mod 2 ^ 7 = 0).
Proof. apply (remap_of_validated_table [7; 6; 5; 4; 3; 2; 1] 63). reflexivity. Defined.

Lemma child_loop_registers_valid_leds_witness :
  exists ls,
    probe_children bus_ok (children cfg_aliased) (boot kzalloc_tm1628) =
      Ret tt {| ctrl := foldl add_led kzalloc_tm1628 ls;
                trace := [EvLedRegister 2 1] |} /\
    ls = [{| led_grid := 2; led_seg := 1 |}] /\
    forallb led_ok ls = true.
Proof.
  destruct (child_loop_registers_valid_leds bus_ok (children cfg_aliased)
              (boot kzalloc_tm1628))
    as (ls & Hrun & Hls & _ & Hok & _); [reflexivity|].
  exists ls. split; [exact Hrun|]. split; [exact Hls | exact Hok].
Defined.

Lemma probe_aborts_when_clear_fails_witness :
  tm1628_spi_probe false bus_down true cfg_aliased (boot kzalloc_tm1628) =
  Ret (-5) {| ctrl := kzalloc_tm1628; trace := probe_clear_events false |}.
Proof.
  apply (probe_aborts_when_clear_fails false bus_down true cfg_aliased
           (boot kzalloc_tm1628)); [reflexivity | discriminate].
Defined.

Lemma probe_leaves_display_blank_witness :
  exists r w',
    tm1628_spi_probe false bus_ok true cfg_aliased (boot kzalloc_tm1628) = Ret r w' /\
    configured (ctrl w') = true /\
    data (ctrl w') = replicate 7 0 /\
    (length (leds (ctrl w')) <= length (children cfg_aliased))%nat /\
    (forall led, In led (leds (ctrl w')) ->
       led_ok led = true /\ tm1628_led_get_brightness false led w' = Ret LED_OFF w') /\
    display_text_show w' = Ret ([10], 1) w'.
Proof.
  apply (probe_leaves_display_blank false bus_ok true cfg_aliased
           (boot kzalloc_tm1628)); reflexivity.
Defined.
